(** * currency_converter.py: a shallow embedding and its properties

    The program is a Streamlit script that is run top to bottom once per
    user interaction.  It reads three widgets and a button, issues HTTP
    requests to the rate source, and draws cards, a chart and a table.

    The embedding keeps that shape: a script is a state transformer over
    the log of what the run did (requests issued, widgets drawn), the
    upstream source is an oracle answering each request, and Python's
    exceptions and [st.stop()] are the two abnormal results.

    What is computed by the script itself is modelled as Python computes
    it: subscripting and membership tests on the parsed JSON, the two
    comprehensions, the product [amount * rate] on binary64 floats, the
    date arithmetic, the [try]/[except] blocks and the unbound name.
    Calls into streamlit, pandas and altair are recorded as events
    carrying the values the script passes.  Two of them are handed what
    the source sent for the historical days, outside any [try]: the
    chart of lines 102-108 and the formatted table of lines 129-130.
    Whether such a call returns or raises (a cell that the format
    "{:.4f}" cannot take, a number the chart cannot encode) is decided
    inside the libraries; the embedding takes it from the environment of
    the run, as it takes the replies of the source, and an exception
    raised there ends the script like any other.  Layout and drawing are
    not modelled, and the page chrome of lines 7-10 is left out. *)

From Stdlib Require Import ZArith Floats Lia.
From stdpp Require Import gmap strings list fin_maps sorting.

Set Warnings "-register-all,-inexact-float".

(* ===================================================================== *)
(** * Values *)
(* ===================================================================== *)

(** What [requests.get(url).json()] can return: Python's image of a JSON
    document.  Objects are dicts keyed by strings; numbers are [int] or
    [float]. *)
Inductive json :=
| JNull
| JBool (b : bool)
| JInt (z : Z)
| JFloat (f : float)
| JStr (s : string)
| JArr (l : list json)
| JObj (m : gmap string json).

(** The exceptions the script can meet. [RequestError] stands for whatever
    [requests.get(...).json()] raises (no connection, a body that is not
    JSON), [LibraryError] for an exception of a class of pandas, altair
    or streamlit. *)
Inductive exn :=
| RequestError
| KeyError
| TypeError
| ValueError
| OverflowError
| NameError
| LibraryError.

(** Evaluation of a Python expression: a value or a raised exception. *)
Inductive py (A : Type) :=
| Val (a : A)
| Raise (e : exn).
Arguments Val {A} a.
Arguments Raise {A} e.

Global Instance py_ret : MRet py := λ A a, Val a.
Global Instance py_bind : MBind py := λ A B f m,
  match m with
  | Val a => f a
  | Raise e => Raise e
  end.

(** [v[k]] for a string key [k]: only a dict can be subscripted by a
    string, and the key has to be there. *)
Definition getitem (v : json) (k : string) : py json :=
  match v with
  | JObj m =>
      match m !! k with
      | Some x => Val x
      | None => Raise KeyError
      end
  | _ => Raise TypeError
  end.

(** [x == k] for a string [k]. *)
Definition eq_str (k : string) (x : json) : bool :=
  match x with
  | JStr s => String.eqb s k
  | _ => false
  end.

Definition is_substring (k s : string) : bool :=
  match String.index 0 k s with
  | Some _ => true
  | None => false
  end.

(** [k in v] for a string [k]: key membership in a dict, element
    membership in a list, substring test in a string, [TypeError] on
    anything else. *)
Definition contains (v : json) (k : string) : py bool :=
  match v with
  | JObj m =>
      Val (match m !! k with
           | Some _ => true
           | None => false
           end)
  | JArr l => Val (existsb (eq_str k) l)
  | JStr s => Val (is_substring k s)
  | _ => Raise TypeError
  end.

(** [float(z)] for a Python [int]: the nearest double, ties to even;
    [OverflowError] beyond the largest double. *)
Definition float_of_int (z : Z) : py float :=
  match binary_normalize FloatOps.prec FloatOps.emax z 0 false with
  | S754_infinity _ => Raise OverflowError
  | sf => Val (SF2Prim sf)
  end.

(** [amount * v] for a float [amount]: [v] has to be a number ([bool] is
    a subclass of [int]). *)
Definition py_mul (amount : float) (v : json) : py float :=
  match v with
  | JFloat f => Val (amount * f)%float
  | JInt z => f ← float_of_int z; Val (amount * f)%float
  | JBool b => Val (amount * (if b then 1 else 0))%float
  | _ => Raise TypeError
  end.

(* ===================================================================== *)
(** * The world and the log of a run *)
(* ===================================================================== *)

(** The two upstream endpoints:
    [https://open.er-api.com/v6/latest/{base}] and
    [https://open.er-api.com/v6/{date}/{base}].  A calendar date is its
    day number (as [date.toordinal()] counts days); the "%Y-%m-%d" text
    of the URL and of [dates_list] names the same day. *)
Inductive endpoint :=
| Latest (base : string)
| Historical (date : Z) (base : string).

Global Instance endpoint_eq_dec : EqDecision endpoint.
Proof. solve_decision. Defined.

(** What one [requests.get(url).json()] gives. *)
Inductive reply :=
| NoReply
| Body (j : json).

Definition json_of (r : reply) : py json :=
  match r with
  | NoReply => Raise RequestError
  | Body j => Val j
  end.

(** The environment of one run: the day [datetime.today()] falls on; the
    upstream source, which may answer the [n]-th request of the run
    differently from an earlier request for the same URL; and the two
    library calls that are handed the series of the history.
    [altair_chart w dates_list historical_rates] is how lines 102-108
    end on these two lists ([pd.DataFrame], [alt.Chart],
    [st.altair_chart]), and [dataframe w format table_data] how lines
    129-130 end on this dict of series and this cell format
    ([pd.DataFrame], [.style.format], [st.dataframe]): they return, or
    they raise.  Any integer may stand for the day: the bounds of
    Python's [datetime] (years 1 to 9999) are not modelled. *)
Record world := World {
  today : Z;
  upstream : nat → endpoint → reply;
  altair_chart : list Z → list json → py unit;
  dataframe : string → gmap string (list Z * list json) → py unit
}.

Inductive error_message :=
| CouldNotFetch (response : json)
| FailedToFetch (e : exn).

Inductive warning_message :=
| CurrenciesNotFound (missing : list string)
| SelectTarget.

Inductive heading :=
| ConversionResults
| Last30Days (from_currency to_currency : string)
| Last30DaysAll.

(** Everything a run does that is visible outside it, in order. *)
Inductive event :=
| Get (e : endpoint)
| StError (m : error_message)
| StWarning (m : warning_message)
| StSubheader (h : heading)
| StMetric (col : nat) (to_cur : string) (converted : float) (rate : json)
| StAltairChart (dates_list : list Z) (historical_rates : list json)
| StDataframe (table_data : gmap string (list Z * list json)).

Record state := State {
  calls : nat;
  trace : list event
}.

Definition init : state := State 0 [].

(** How a piece of the script ends: normally, by [st.stop()] (Streamlit's
    [StopException], which is not an [Exception]), or by a Python
    exception on its way up. *)
Inductive result (A : Type) :=
| Done (a : A)
| Stopped
| Raised (e : exn).
Arguments Done {A} a.
Arguments Stopped {A}.
Arguments Raised {A} e.

Definition script (A : Type) : Type := state → result A * state.

Global Instance script_ret : MRet script := λ A a s, (Done a, s).
Global Instance script_bind : MBind script := λ A B f m s,
  match m s with
  | (Done a, s') => f a s'
  | (Stopped, s') => (Stopped, s')
  | (Raised e, s') => (Raised e, s')
  end.

Definition emit (e : event) : script unit :=
  λ s, (Done (), State (calls s) (trace s ++ [e])).

Definition st_stop {A} : script A := λ s, (Stopped, s).

Definition raise {A} (e : exn) : script A := λ s, (Raised e, s).

(** Evaluate a Python expression inside the script. *)
Definition eval {A} (v : py A) : script A :=
  match v with
  | Val a => mret a
  | Raise e => raise e
  end.

(** A call that draws: it is logged with what it is given, and ends as
    the library makes it end. *)
Definition draw (e : event) (ending : py unit) : script unit :=
  emit e;; eval ending.

(** [try: body / except Exception as e: handler e]: [st.stop()] passes
    through. *)
Definition try_except {A} (body : script A) (handler : exn → script A) : script A :=
  λ s,
  match body s with
  | (Raised e, s') => handler e s'
  | r => r
  end.

(** [try: body / except: handler]: the bare clause catches everything. *)
Definition try_bare {A} (body : script A) (handler : script A) : script A :=
  λ s,
  match body s with
  | (Done a, s') => (Done a, s')
  | (_, s') => handler s'
  end.

(** [for x in xs: acc = body x acc] *)
Fixpoint for_in {A S} (xs : list A) (body : A → S → script S) (acc : S) : script S :=
  match xs with
  | [] => mret acc
  | x :: xs' => acc' ← body x acc; for_in xs' body acc'
  end.

(** [range(n)] and [enumerate(l)] *)
Definition range (n : nat) : list nat := seq 0 n.
Definition enumerate {A} (l : list A) : list (nat * A) := zip (seq 0 (length l)) l.

(** Reading a module-level name that may not have been bound yet. *)
Definition read_name {A} (x : option A) : script A :=
  match x with
  | Some a => mret a
  | None => raise NameError
  end.

(* ===================================================================== *)
(** * The script *)
(* ===================================================================== *)

(** The keys of the [currencies] dict, which are the options of both
    sidebar widgets, and the dict itself. *)
Inductive currency_name := USD | EUR | GBP | NGN | JPY | CAD | AUD.

Definition currencies (name : currency_name) : string :=
  match name with
  | USD => "USD"
  | EUR => "EUR"
  | GBP => "GBP"
  | NGN => "NGN"
  | JPY => "JPY"
  | CAD => "CAD"
  | AUD => "AUD"
  end.

(** The sidebar of one run. *)
Record inputs := Inputs {
  from_currency_name : currency_name;
  to_currency_names : list currency_name;
  amount : float;
  swap_clicked : bool
}.

(** Lines 37-43: the body of [if st.sidebar.button("Swap")]. *)
Definition swap (from_name : currency_name) (to_names : list currency_name)
  : currency_name * list currency_name :=
  match to_names with
  | [] => (from_name, to_names)
  | first :: _ => (first, <[0%nat := from_name]> to_names)
  end.

(** Lines 33-43: [from_currency] and [to_currencies] as the rest of the
    script sees them, after the button. *)
Definition sidebar (i : inputs) : string * list string :=
  let '(from_name, to_names) :=
    if swap_clicked i then swap (from_currency_name i) (to_currency_names i)
    else (from_currency_name i, to_currency_names i) in
  (currencies from_name, currencies <$> to_names).

(** Lines 55 and 58: the two comprehensions over [to_currencies]. *)
Definition project_rates (all_rates : json) (to_currencies : list string)
  : py (gmap string json) :=
  foldl (λ acc cur,
           rates ← acc;
           b ← contains all_rates cur;
           if (b : bool) then v ← getitem all_rates cur; Val (<[cur := v]> rates)
           else Val rates)
        (Val ∅) to_currencies.

Definition project_missing (all_rates : json) (to_currencies : list string)
  : py (list string) :=
  foldl (λ acc cur,
           missing ← acc;
           b ← contains all_rates cur;
           if (b : bool) then Val missing else Val (missing ++ [cur]))
        (Val []) to_currencies.

(** The cells of the table of line 129: the rates of its series. *)
Definition cells (table_data : gmap string (list Z * list json)) : list json :=
  map_to_list table_data ≫= λ column, column.2.2.

Section Run.
Variable w : world.

(** [requests.get(url).json()]: one request goes out, whatever comes
    back. *)
Definition get_json (e : endpoint) : script json :=
  λ s,
  let r := upstream w (calls s) e in
  eval (json_of r) (State (S (calls s)) (trace s ++ [Get e])).

(** Lines 46-63. *)
Definition fetch_live_rates (from_currency : string) (to_currencies : list string)
  : script (gmap string json * list string) :=
  try_except
    (response ← get_json (Latest from_currency);
     status ← eval (getitem response "result");
     if negb (eq_str "success" status) then
       emit (StError (CouldNotFetch response));; st_stop
     else
       all_rates ← eval (getitem response "rates");
       rates ← eval (project_rates all_rates to_currencies);
       missing ← eval (project_missing all_rates to_currencies);
       match missing with
       | [] => mret ()
       | _ :: _ => emit (StWarning (CurrenciesNotFound missing))
       end;;
       mret (rates, missing))
    (λ e, emit (StError (FailedToFetch e));; st_stop).

(** Lines 65-78. *)
Definition conversion_cards (from_currency : string) (to_currencies : list string)
    (amount : float) (rates : gmap string json) : script unit :=
  emit (StSubheader ConversionResults);;
  match to_currencies with
  | [] => emit (StWarning SelectTarget)
  | _ :: _ =>
      for_in (enumerate to_currencies)
        (λ '(i, to_cur) _,
           match rates !! to_cur with
           | Some rate =>
               converted ← eval (py_mul amount rate);
               emit (StMetric i to_cur converted rate)
           | None => mret ()
           end)
        ()
  end.

(** Lines 92-99 and 120-126: one day's request, and the observation it
    adds to the two lists.  Any exception leaves the lists as they
    were and goes on to the next day. *)
Definition fetch_day (from_currency cur : string) (date : Z)
    (acc : list json * list Z) : script (list json * list Z) :=
  try_bare
    (hist_resp ← get_json (Historical date from_currency);
     status ← eval (getitem hist_resp "result");
     if eq_str "success" status then
       hist_rates ← eval (getitem hist_resp "rates");
       b ← eval (contains hist_rates cur);
       if (b : bool) then
         rate ← eval (getitem hist_rates cur);
         mret (acc.1 ++ [rate], acc.2 ++ [date])
       else mret acc
     else mret acc)
    (mret acc).

(** Lines 80-108.  The block binds [start_date] only when its guard
    holds; the value it returns is that binding.  The chart of lines
    102-108 is outside the [try] of the loop: if it raises, so does the
    block. *)
Definition trend_block (from_currency : string) (to_currencies : list string)
    (rates : gmap string json) : script (option Z) :=
  match to_currencies with
  | first :: _ =>
      match rates !! first with
      | Some _ =>
          emit (StSubheader (Last30Days from_currency first));;
          let end_date := today w in
          let start_date := (end_date - 30)%Z in
          '(historical_rates, dates_list) ←
            for_in (range 31)
              (λ i acc, fetch_day from_currency first (start_date + Z.of_nat i)%Z acc)
              ([], []);
          match historical_rates with
          | [] => mret ()
          | _ :: _ =>
              draw (StAltairChart dates_list historical_rates)
                   (altair_chart w dates_list historical_rates)
          end;;
          mret (Some start_date)
      | None => mret None
      end
  | [] => mret None
  end.

(** Lines 129-130: [st.dataframe(pd.DataFrame(table_data).style.format("{:.4f}"))].
    The format works on the cells; a table whose series are all empty
    has its columns and not one cell, and the call returns. *)
Definition st_dataframe (table_data : gmap string (list Z * list json)) : py unit :=
  match cells table_data with
  | [] => Val ()
  | _ :: _ => dataframe w "{:.4f}" table_data
  end.

(** Lines 110-130.  The table of lines 129-130 is outside any [try]: if
    it raises, so does the block. *)
Definition table_block (from_currency : string) (to_currencies : list string)
    (start_date : option Z) : script unit :=
  if decide (1 < length to_currencies) then
    emit (StSubheader Last30DaysAll);;
    table_data ←
      for_in to_currencies
        (λ cur table_data,
           '(cur_rates, cur_dates) ←
             for_in (range 31)
               (λ i acc,
                  start ← read_name start_date;
                  fetch_day from_currency cur (start + Z.of_nat i)%Z acc)
               ([], []);
           mret (<[cur := (cur_dates, cur_rates)]> table_data))
        (∅ : gmap string (list Z * list json));
    if decide (table_data = ∅) then mret ()
    else draw (StDataframe table_data) (st_dataframe table_data)
  else mret ().

(** The whole script, from the sidebar down. *)
Definition main (i : inputs) : script unit :=
  let '(from_currency, to_currencies) := sidebar i in
  '(rates, missing) ← fetch_live_rates from_currency to_currencies;
  conversion_cards from_currency to_currencies (amount i) rates;;
  start_date ← trend_block from_currency to_currencies rates;
  table_block from_currency to_currencies start_date.

Definition run (i : inputs) : result unit * state := main i init.

End Run.

(* ===================================================================== *)
(** * Vocabulary for the properties *)
(* ===================================================================== *)

(** ** What one day's reply contributes *)

(** The body of the [try] of lines 92-97 (and 120-124) as an expression:
    the rate the day adds for [cur], if any. *)
Definition day_rate (cur : string) (r : reply) : py (option json) :=
  hist_resp ← json_of r;
  status ← getitem hist_resp "result";
  if eq_str "success" status then
    hist_rates ← getitem hist_resp "rates";
    b ← contains hist_rates cur;
    if (b : bool) then rate ← getitem hist_rates cur; Val (Some rate)
    else Val None
  else Val None.

(** The same with the bare [except] around it. *)
Definition observed (cur : string) (r : reply) : option json :=
  match day_rate cur r with
  | Val o => o
  | Raise _ => None
  end.

(** The 31 days the loops walk through, from [start_date]. *)
Definition window (start_date : Z) : list Z :=
  (λ i : nat, (start_date + Z.of_nat i)%Z) <$> range 31.

(** The observations of [cur] over the days [ds], when the first of the
    requests is the [n]-th of the run. *)
Fixpoint observations (w : world) (from_currency cur : string) (n : nat) (ds : list Z)
  : list (Z * json) :=
  match ds with
  | [] => []
  | d :: ds' =>
      match observed cur (upstream w n (Historical d from_currency)) with
      | Some rate => (d, rate) :: observations w from_currency cur (S n) ds'
      | None => observations w from_currency cur (S n) ds'
      end
  end.

(** The requests for the days [ds], as they appear in the log. *)
Definition gets (from_currency : string) (ds : list Z) : list event :=
  (λ d, Get (Historical d from_currency)) <$> ds.

(** How a script ends on a call that returns nothing: normally, with
    [a] for its own value, or by the exception the call raises. *)
Definition outcome {A} (ending : py unit) (a : A) : result A :=
  match ending with
  | Val _ => Done a
  | Raise e => Raised e
  end.

(** The chart of line 101-108, drawn only for a non-empty series, and
    how that call ends. *)
Definition chart (obs : list (Z * json)) : list event :=
  match obs with
  | [] => []
  | _ :: _ => [StAltairChart obs.*1 obs.*2]
  end.

Definition chart_call (w : world) (obs : list (Z * json)) : py unit :=
  match obs with
  | [] => Val ()
  | _ :: _ => altair_chart w obs.*1 obs.*2
  end.

(** The table of lines 113-127: one series per currency, a later
    occurrence of a currency replacing an earlier one. *)
Fixpoint table_of (w : world) (from_currency : string) (start_date : Z) (n : nat)
    (to_currencies : list string) (table_data : gmap string (list Z * list json))
  : gmap string (list Z * list json) :=
  match to_currencies with
  | [] => table_data
  | cur :: rest =>
      let obs := observations w from_currency cur n (window start_date) in
      table_of w from_currency start_date (n + 31) rest
        (<[cur := (obs.*1, obs.*2)]> table_data)
  end.

(** ** Reading the log *)

(** The requests of a log, in the order they went out. *)
Definition fetches (evs : list event) : list endpoint :=
  omap (λ e, match e with Get ep => Some ep | _ => None end) evs.

Definition base_of (ep : endpoint) : string :=
  match ep with
  | Latest base => base
  | Historical _ base => base
  end.

(** How many times [ep] was requested. *)
Definition times_fetched (ep : endpoint) (evs : list event) : nat :=
  length (filter (ep =.) (fetches evs)).

(** ** Replies *)

(** A reply that reports success and carries the rates mapping [m]. *)
Definition success_with (m : gmap string json) (r : reply) : Prop :=
  ∃ fields : gmap string json,
    r = Body (JObj fields) ∧
    fields !! "result" = Some (JStr "success") ∧
    fields !! "rates" = Some (JObj m).

(** The ways a fetch is not a success: nothing usable came back, the
    payload lacks one of the two fields, or the status field says so. *)
Inductive fetch_failure : reply → Prop :=
| Unreachable :
    fetch_failure NoReply
| MalformedNotObject j :
    (∀ fields, j ≠ JObj fields) → fetch_failure (Body j)
| MalformedNoStatus fields :
    fields !! "result" = None → fetch_failure (Body (JObj fields))
| MalformedNoRates fields :
    fields !! "rates" = None → fetch_failure (Body (JObj fields))
| UpstreamRejected fields status :
    fields !! "result" = Some status → status ≠ JStr "success" →
    fetch_failure (Body (JObj fields)).

(** The same for one day of the history, as a test: the request raised
    or its reply is not a success. *)
Definition fetch_failed (r : reply) : bool :=
  match r with
  | NoReply => true
  | Body (JObj fields) =>
      match fields !! "result" with
      | Some status => negb (eq_str "success" status)
      | None => true
      end
  | Body _ => true
  end.

(** The number of days of the window whose fetch failed, when the first
    request of the window is the [n]-th of the run. *)
Definition failed_fetches (w : world) (from_currency : string) (n : nat)
    (start_date : Z) : nat :=
  length (filter
            (λ i : nat, fetch_failed
                          (upstream w (n + i)
                             (Historical (start_date + Z.of_nat i) from_currency)) = true)
            (range 31)).

(** ** Invariants of the log *)

(** [P] survives [m], however [m] ends. *)
Definition preserves {A} (P : state → Prop) (m : script A) : Prop :=
  ∀ s, P s → P (m s).2.

(** Dates in strictly increasing order. *)
Definition increasing (dates : list Z) : Prop := StronglySorted Z.lt dates.

(** A request is for the rates of [base]. *)
Definition requests_base (base : string) (e : event) : Prop :=
  match e with
  | Get ep => base_of ep = base
  | _ => True
  end.

(** A series that is drawn has its dates in strictly increasing order. *)
Definition series_increasing (e : event) : Prop :=
  match e with
  | StAltairChart dates_list _ => increasing dates_list
  | StDataframe table_data =>
      ∀ cur series, table_data !! cur = Some series → increasing series.1
  | _ => True
  end.

(** What holds of every event of a run whose base currency is [base]. *)
Definition well_formed_event (base : string) (e : event) : Prop :=
  requests_base base e ∧ series_increasing e.

Definition well_formed (base : string) (s : state) : Prop :=
  Forall (well_formed_event base) (trace s).

Definition is_error (e : event) : bool :=
  match e with
  | StError _ => true
  | _ => false
  end.

(** What the blocks after the latest-rates fetch add to the log: well
    formed events, none of them an error. *)
Definition rendering (base : string) (e : event) : Prop :=
  well_formed_event base e ∧ is_error e = false.

(** [m] only adds events that satisfy [Q] to the log, and never ends by
    [st.stop()]. *)
Definition proceeds {A} (Q : event → Prop) (m : script A) : Prop :=
  ∀ s, ∃ evs, trace (m s).2 = trace s ++ evs ∧ Forall Q evs ∧ (m s).1 ≠ Stopped.

(** ** One bad day *)

(** The series [obs] of [cur] over the window from [start_date], whose
    first request is the [n]-th of the run, has every day with a
    successful reply that carries [cur], and no day whose fetch failed. *)
Definition absorbs (w : world) (from_currency cur : string) (n : nat) (start_date : Z)
    (obs : list (Z * json)) : Prop :=
  ∀ k : nat, k < 31 →
    let date := (start_date + Z.of_nat k)%Z in
    let r := upstream w (n + k) (Historical date from_currency) in
    (∀ m rate, success_with m r → m !! cur = Some rate → (date, rate) ∈ obs) ∧
    (fetch_failed r = true → date ∉ obs.*1).

(** The warning of line 59-60, if any. *)
Definition warning (missing : list string) : list event :=
  match missing with
  | [] => []
  | _ :: _ => [StWarning (CurrenciesNotFound missing)]
  end.

(** The events the latest-rates block can add after its request, and
    those the cards block can add after its heading. *)
Definition is_notice (e : event) : bool :=
  match e with
  | StError _ | StWarning _ => true
  | _ => false
  end.

Definition is_card (e : event) : bool :=
  match e with
  | StWarning SelectTarget | StMetric _ _ _ _ => true
  | _ => false
  end.

(** ** Stepping through a script *)

(** Run the monadic glue of a script: the equations of [≫=], [mret] and
    [emit] are collected in the rewrite database [script]. *)
Create Rewrite HintDb script.

Ltac script_step :=
  first [ progress autorewrite with script
        | progress cbn [eval raise st_stop read_name fst snd calls trace] ].
Ltac run_script := repeat script_step.

(* ===================================================================== *)
(** * Sample worlds *)
(* ===================================================================== *)

(** Libraries that draw whatever they are given. *)
Definition returns {A B} (_ : A) (_ : B) : py unit := Val ().

Definition sample_rates : gmap string json :=
  {[ "EUR" := JFloat 0.9; "JPY" := JInt 150 ]}.

(** A reply that reports success with the rates [m]. *)
Definition success (m : gmap string json) : reply :=
  Body (JObj {[ "result" := JStr "success"; "rates" := JObj m ]}).

(** The source answers every request with the same rates. *)
Definition steady : world :=
  World 739000 (λ _ _, success sample_rates) returns returns.

(** The requests for the first five days of the window fail. *)
Definition five_failures : world :=
  World 739000
    (λ _ ep,
       match ep with
       | Latest _ => success sample_rates
       | Historical d _ => if (d <? 738975)%Z then NoReply else success sample_rates
       end)
    returns returns.

(** The replies for the first five days of the window succeed, with no
    rates in them. *)
Definition five_gaps : world :=
  World 739000
    (λ _ ep,
       match ep with
       | Latest _ => success sample_rates
       | Historical d _ => if (d <? 738975)%Z then success ∅ else success sample_rates
       end)
    returns returns.

(** A reply that reports success but carries a list where the rates
    mapping should be. *)
Definition rates_as_list : world :=
  World 739000
    (λ _ _, Body (JObj {[ "result" := JStr "success"; "rates" := JArr [] ]}))
    returns returns.

(* ===================================================================== *)
(** * Vocabulary for the whole run *)
(* ===================================================================== *)

(** The rate the reply [r] gives the currency [t]: [r.json()["rates"][t]]. *)
Definition reply_rate (r : reply) (t : string) : py json :=
  response ← json_of r;
  all_rates ← getitem response "rates";
  getitem all_rates t.

(** Lines 55 and 58 on one target: the membership test and, where it
    holds, the lookup.  The value tells whether the target is available;
    [lacks] is the test of line 58, where it does not raise. *)
Definition probe (all_rates : json) (cur : string) : py bool :=
  b ← contains all_rates cur;
  if (b : bool) then _ ← getitem all_rates cur; Val true else Val false.

Definition lacks (all_rates : json) (cur : string) : bool :=
  match contains all_rates cur with
  | Val false => true
  | _ => false
  end.

(** The base currency, the targets and the first day of the window, as
    one run sees them. *)
Definition base_currency (i : inputs) : string := (sidebar i).1.
Definition targets (i : inputs) : list string := (sidebar i).2.
Definition first_day (w : world) : Z := (today w - 30)%Z.

(** The reply to the first request of a run. *)
Definition latest_reply (w : world) (i : inputs) : reply :=
  upstream w 0 (Latest (base_currency i)).

(** A card of the cards block, against the [rates] it is drawn from:
    column [col] is for the target at position [col], and shows the
    product of the amount and that target's rate. *)
Definition card_in (to_currencies : list string) (amount : float)
    (rates : gmap string json) (e : event) : Prop :=
  match e with
  | StMetric col to_cur converted rate =>
      to_currencies !! col = Some to_cur ∧
      rates !! to_cur = Some rate ∧
      py_mul amount rate = Val converted
  | StWarning SelectTarget => to_currencies = []
  | _ => False
  end.

(** The same against the latest-rates reply of the run. *)
Definition card_of (w : world) (i : inputs) (e : event) : Prop :=
  match e with
  | StMetric col to_cur converted rate =>
      targets i !! col = Some to_cur ∧
      reply_rate (latest_reply w i) to_cur = Val rate ∧
      py_mul (amount i) rate = Val converted
  | StWarning SelectTarget => targets i = []
  | _ => False
  end.

(** The log of a run up to the end of the cards block: the request, the
    warning about missing targets if any, the heading and the cards. *)
Definition rendered (w : world) (i : inputs) (pre : list event) : Prop :=
  ∃ missing cards,
    pre = Get (Latest (base_currency i))
            :: warning missing ++ StSubheader ConversionResults :: cards ∧
    Forall (card_of w i) cards.

(** What the trend block and the table block add to the log of a run. *)
Definition trend_events (w : world) (i : inputs) (first : string) : list event :=
  StSubheader (Last30Days (base_currency i) first)
    :: gets (base_currency i) (window (first_day w))
    ++ chart (observations w (base_currency i) first 1 (window (first_day w))).

Definition table_events (w : world) (i : inputs) : list event :=
  StSubheader Last30DaysAll
    :: (targets i ≫= λ _, gets (base_currency i) (window (first_day w)))
    ++ [StDataframe (table_of w (base_currency i) (first_day w) 32 (targets i) ∅)].

(** The series of the chart and the table of a run. *)
Definition trend_series (w : world) (i : inputs) (first : string) : list (Z * json) :=
  observations w (base_currency i) first 1 (window (first_day w)).

Definition table_series (w : world) (i : inputs) : gmap string (list Z * list json) :=
  table_of w (base_currency i) (first_day w) 32 (targets i) ∅.

(** The ways a run can go: it stops at the latest-rates fetch; a product
    raises in the cards; it ends after the cards, with no history; the
    table finds [start_date] unbound; it ends on the chart of the trend,
    normally or, with more targets, because the chart raises; it ends on
    the table. *)
Inductive run_path (w : world) (i : inputs) : result unit * state → Prop :=
| path_stopped err :
    run_path w i
      (Stopped, State 1 [Get (Latest (base_currency i)); StError err])
| path_card_raises pre e :
    rendered w i pre →
    e = TypeError ∨ e = OverflowError →
    run_path w i (Raised e, State 1 pre)
| path_no_history pre :
    rendered w i pre →
    length (targets i) ≤ 1 →
    run_path w i (Done (), State 1 pre)
| path_unbound pre :
    rendered w i pre →
    1 < length (targets i) →
    run_path w i (Raised NameError, State 1 (pre ++ [StSubheader Last30DaysAll]))
| path_trend pre first rate :
    rendered w i pre →
    targets i = [first] →
    reply_rate (latest_reply w i) first = Val rate →
    run_path w i
      (outcome (chart_call w (trend_series w i first)) (),
       State 32 (pre ++ trend_events w i first))
| path_chart_raises pre first rate e :
    rendered w i pre →
    1 < length (targets i) →
    head (targets i) = Some first →
    reply_rate (latest_reply w i) first = Val rate →
    chart_call w (trend_series w i first) = Raise e →
    run_path w i (Raised e, State 32 (pre ++ trend_events w i first))
| path_table pre first rate :
    rendered w i pre →
    1 < length (targets i) →
    head (targets i) = Some first →
    reply_rate (latest_reply w i) first = Val rate →
    chart_call w (trend_series w i first) = Val () →
    run_path w i
      (outcome (st_dataframe w (table_series w i)) (),
       State (32 + 31 * length (targets i))
         (pre ++ trend_events w i first ++ table_events w i)).

(** The days whose historical rates a run requests, in order. *)
Definition days_fetched (evs : list event) : list Z :=
  omap (λ ep, match ep with Historical d _ => Some d | Latest _ => None end)
       (fetches evs).

(** A series whose two lists go together and whose dates lie in the 31
    days that end at [today]. *)
Definition series_ok (w : world) (series : list Z * list json) : Prop :=
  length series.1 = length series.2 ∧
  Forall (λ d, (today w - 30 ≤ d ≤ today w)%Z) series.1.

(** Every observation of the series is the rate that day's reply gave
    the currency, in a reply that reports success: nothing is
    interpolated or filled in. *)
Definition faithful (w : world) (from_currency cur : string) (n : nat) (start_date : Z)
    (obs : list (Z * json)) : Prop :=
  ∀ d rate, (d, rate) ∈ obs →
    ∃ k : nat,
      k < 31 ∧ d = (start_date + Z.of_nat k)%Z ∧
      let r := upstream w (n + k) (Historical d from_currency) in
      fetch_failed r = false ∧ reply_rate r cur = Val rate.

(** A JSON value that is neither a container nor a string. *)
Definition scalar (v : json) : bool :=
  match v with
  | JNull | JBool _ | JInt _ | JFloat _ => true
  | _ => false
  end.

(** The source answers the latest-rates request, and no other. *)
Definition history_down : world :=
  World 739000
    (λ _ ep,
       match ep with
       | Latest _ => success sample_rates
       | Historical _ _ => NoReply
       end)
    returns returns.

(** The source quotes the rate of EUR as a string. *)
Definition quoted_rate : world :=
  World 739000 (λ _ _, success {[ "EUR" := JStr "0.9"; "JPY" := JInt 150 ]})
    returns returns.

(** The source quotes the historical rates as strings; the chart takes
    them, and the cell format of the table raises on a string. *)
Definition is_text (v : json) : bool :=
  match v with
  | JStr _ => true
  | _ => false
  end.

Definition quoted_history : world :=
  World 739000
    (λ _ ep,
       match ep with
       | Latest _ => success sample_rates
       | Historical _ _ => success {[ "EUR" := JStr "0.9"; "JPY" := JStr "150" ]}
       end)
    returns
    (λ _ table_data,
       if existsb is_text (cells table_data) then Raise ValueError else Val ()).

(** The chart raises on whatever it is given. *)
Definition chart_fails : world :=
  World 739000 (λ _ _, success sample_rates) (λ _ _, Raise LibraryError) returns.

(** The source reports success with [null] for the rates. *)
Definition null_rates : world :=
  World 739000
    (λ _ _, Body (JObj {[ "result" := JStr "success"; "rates" := JNull ]}))
    returns returns.

(* ===================================================================== *)
(** * Lemmas on the building blocks *)
(* ===================================================================== *)

Lemma bind_unfold {A B} (m : script A) (f : A → script B) s :
  (m ≫= f) s =
  match m s with
  | (Done a, s') => f a s'
  | (Stopped, s') => (Stopped, s')
  | (Raised e, s') => (Raised e, s')
  end.
Proof. reflexivity. Qed.

Lemma ret_unfold {A} (a : A) (s : state) : mret (M := script) a s = (Done a, s).
Proof. reflexivity. Qed.

Lemma emit_unfold (e : event) (s : state) :
  emit e s = (Done (), State (calls s) (trace s ++ [e])).
Proof. reflexivity. Qed.

Lemma draw_unfold (e : event) (ending : py unit) (s : state) :
  draw e ending s = (outcome ending (), State (calls s) (trace s ++ [e])).
Proof. by destruct ending as [[]|]. Qed.

#[global] Hint Rewrite @bind_unfold @ret_unfold emit_unfold draw_unfold : script.

Lemma for_in_ext {A S} (xs : list A) (body1 body2 : A → S → script S) acc s :
  (∀ x acc s, body1 x acc s = body2 x acc s) →
  for_in xs body1 acc s = for_in xs body2 acc s.
Proof.
  intros Hbody. revert acc s.
  induction xs as [|x xs IH]; intros acc s; simpl; [done|].
  rewrite !bind_unfold, Hbody.
  destruct (body2 x acc s) as [[acc'| |e] s']; auto.
Qed.

(** ** One day *)

Lemma fetch_day_spec w from_currency cur date acc s :
  fetch_day w from_currency cur date acc s =
  (Done (match observed cur (upstream w (calls s) (Historical date from_currency)) with
         | Some rate => (acc.1 ++ [rate], acc.2 ++ [date])
         | None => acc
         end),
   State (S (calls s)) (trace s ++ [Get (Historical date from_currency)])).
Proof.
  cbv beta delta [fetch_day try_bare get_json mbind script_bind mret script_ret
                  py_bind py_ret observed day_rate].
  destruct (upstream w (calls s) (Historical date from_currency)) as [|j]; simpl; [done|].
  destruct (getitem j "result") as [status|e]; simpl; [|done].
  destruct (eq_str "success" status); simpl; [|done].
  destruct (getitem j "rates") as [hr|e]; simpl; [|done].
  destruct (contains hr cur) as [[]|e]; simpl; try done.
  destruct (getitem hr cur) as [rate|e]; simpl; done.
Qed.

Lemma eq_str_true k x : eq_str k x = true ↔ x = JStr k.
Proof.
  destruct x; simpl; try (split; [discriminate|congruence]).
  rewrite String.eqb_eq. split; congruence.
Qed.

Lemma observed_success cur m r :
  success_with m r → observed cur r = m !! cur.
Proof.
  intros (fields & -> & Hst & Hrates).
  unfold observed, day_rate. simpl. rewrite Hst. simpl. rewrite Hrates. simpl.
  destruct (m !! cur); done.
Qed.

Lemma observed_failed cur r :
  fetch_failed r = true → observed cur r = None.
Proof.
  unfold observed, day_rate.
  destruct r as [|[]]; simpl; try done.
  destruct (m !! "result") as [status|]; simpl; [|done].
  by intros ->%negb_true_iff.
Qed.

(** ** The window *)

Lemma window_unfold sd :
  (λ i : nat, (sd + Z.of_nat i)%Z) <$> range 31 = window sd.
Proof. reflexivity. Qed.

Lemma window_length sd : length (window sd) = 31.
Proof. reflexivity. Qed.

Lemma window_lookup sd (k : nat) :
  k < 31 → window sd !! k = Some (sd + Z.of_nat k)%Z.
Proof.
  intros Hk. unfold window, range.
  rewrite list_lookup_fmap, lookup_seq_lt by done. done.
Qed.

Lemma window_lookup_Some sd (k : nat) d :
  window sd !! k = Some d ↔ k < 31 ∧ d = (sd + Z.of_nat k)%Z.
Proof.
  split.
  - intros Hd. assert (k < 31) as Hk.
    { apply lookup_lt_Some in Hd. by rewrite window_length in Hd. }
    rewrite window_lookup in Hd by done. split; congruence.
  - intros [Hk ->]. by apply window_lookup.
Qed.

Lemma elem_of_window sd d : d ∈ window sd ↔ (sd ≤ d ≤ sd + 30)%Z.
Proof.
  rewrite list_elem_of_lookup. split.
  - intros [k [Hk ->]%window_lookup_Some]. lia.
  - intros Hd. exists (Z.to_nat (d - sd)). apply window_lookup_Some. lia.
Qed.

Lemma window_head sd : head (window sd) = Some sd.
Proof. cbn. f_equal. lia. Qed.

Lemma window_last sd : last (window sd) = Some (sd + 30)%Z.
Proof. reflexivity. Qed.

Lemma seq_shift_sorted (sd : Z) (a n : nat) :
  StronglySorted Z.lt ((λ i : nat, (sd + Z.of_nat i)%Z) <$> seq a n).
Proof.
  revert a. induction n as [|n IH]; intros a; simpl; constructor; [apply IH|].
  apply Forall_fmap, Forall_forall. intros i Hi%elem_of_seq. simpl. lia.
Qed.

Lemma window_sorted sd : StronglySorted Z.lt (window sd).
Proof. apply seq_shift_sorted. Qed.

Lemma window_NoDup sd : NoDup (window sd).
Proof.
  apply NoDup_fmap_2; [|apply NoDup_seq].
  intros i j Hij. lia.
Qed.

(** From here on the window is only used through the lemmas above. *)
#[global] Opaque window.


Lemma sublist_sorted {A} (R : relation A) (l1 l2 : list A) :
  l1 `sublist_of` l2 → StronglySorted R l2 → StronglySorted R l1.
Proof.
  induction 1 as [|x l1 l2 Hsub IH|x l1 l2 Hsub IH]; intros Hs; [done|..].
  - apply StronglySorted_inv in Hs as [Hs Hx]. constructor; [auto|].
    eapply Forall_forall. intros y Hy. eapply Forall_forall in Hx; [done|].
    by eapply elem_of_sublist.
  - apply StronglySorted_inv in Hs as [Hs _]. auto.
Qed.

(** ** The observations of a list of days *)

Section Observations.
Variables (w : world) (from_currency cur : string).

Lemma observations_dates_sublist n ds :
  (observations w from_currency cur n ds).*1 `sublist_of` ds.
Proof.
  revert n. induction ds as [|d ds IH]; intros n; simpl; [done|].
  destruct (observed _ _); simpl; [by apply sublist_skip|by apply sublist_cons].
Qed.

Lemma elem_of_observations n ds d rate :
  NoDup ds →
  (d, rate) ∈ observations w from_currency cur n ds ↔
  ∃ k : nat, ds !! k = Some d ∧
             observed cur (upstream w (n + k) (Historical d from_currency)) = Some rate.
Proof.
  intros Hnd. revert n.
  induction Hnd as [|d0 ds Hd0 Hnd IH]; intros n; simpl.
  { split; [by intros ?%elem_of_nil|by intros (k & ? & _)]. }
  assert ((d, rate) ∈ observations w from_currency cur (S n) ds → d ≠ d0) as Hne.
  { intros Hin ->. apply Hd0.
    eapply elem_of_sublist; [|apply (observations_dates_sublist (S n))].
    apply list_elem_of_fmap. by exists (d0, rate). }
  split.
  - intros Hin.
    assert ((d = d0 ∧ observed cur (upstream w n (Historical d0 from_currency)) = Some rate)
            ∨ (d, rate) ∈ observations w from_currency cur (S n) ds) as [[-> Hobs]|Hin'].
    { destruct (observed cur (upstream w n (Historical d0 from_currency))) eqn:Hobs;
        [|by right].
      apply elem_of_cons in Hin as [[= -> ->]|?]; [by left|by right]. }
    + exists 0. by rewrite Nat.add_0_r.
    + apply IH in Hin' as (k & Hk & Hobs). exists (S k).
      by rewrite Nat.add_succ_r.
  - intros ([|k] & Hk & Hobs); simpl in Hk.
    + injection Hk as ->. rewrite Nat.add_0_r in Hobs. rewrite Hobs. left.
    + assert ((d, rate) ∈ observations w from_currency cur (S n) ds) as Hin.
      { apply IH. exists k. by rewrite Nat.add_succ_r in Hobs. }
      destruct (observed cur (upstream w n (Historical d0 from_currency)));
        [by right|done].
Qed.

Lemma observations_all n ds (rate : nat → Z → json) :
  (∀ (k : nat) d, ds !! k = Some d →
     observed cur (upstream w (n + k) (Historical d from_currency)) = Some (rate k d)) →
  observations w from_currency cur n ds = imap (λ k d, (d, rate k d)) ds.
Proof.
  revert n rate. induction ds as [|d ds IH]; intros n rate Hall; simpl; [done|].
  specialize (Hall 0 d eq_refl) as Hd. rewrite Nat.add_0_r in Hd. rewrite Hd.
  f_equal. rewrite (IH (S n) (λ k, rate (S k))); [done|].
  intros k d' Hk. rewrite <- (Hall (S k) d' Hk). by rewrite Nat.add_succ_r.
Qed.

Lemma observations_count sd n a len :
  (∀ i : nat, a ≤ i < a + len →
     let r := upstream w (n + i) (Historical (sd + Z.of_nat i) from_currency) in
     fetch_failed r = true ∨ is_Some (observed cur r)) →
  length (observations w from_currency cur (n + a)
            ((λ i : nat, (sd + Z.of_nat i)%Z) <$> seq a len))
  + length (filter
              (λ i : nat, fetch_failed
                            (upstream w (n + i)
                               (Historical (sd + Z.of_nat i) from_currency)) = true)
              (seq a len))
  = len.
Proof.
  revert a. induction len as [|len IH]; intros a Hday; [done|].
  simpl. rewrite filter_cons.
  assert (length (observations w from_currency cur (S (n + a))
                    ((λ i : nat, (sd + Z.of_nat i)%Z) <$> seq (S a) len))
          + length (filter
                      (λ i : nat, fetch_failed
                                    (upstream w (n + i)
                                       (Historical (sd + Z.of_nat i) from_currency)) = true)
                      (seq (S a) len)) = len) as Hrest.
  { rewrite <- Nat.add_succ_r. apply IH. intros i Hi. apply Hday. lia. }
  destruct (Hday a ltac:(lia)) as [Hfail|[rate Hrate]].
  - rewrite (observed_failed _ _ Hfail). rewrite decide_True by done.
    simpl. rewrite Nat.add_succ_r. f_equal. exact Hrest.
  - rewrite Hrate. rewrite decide_False; [simpl; f_equal; exact Hrest|].
    intros Hfail. by rewrite (observed_failed _ _ Hfail) in Hrate.
Qed.

End Observations.


(** ** The two history loops *)

Section Loops.
Variable w : world.

Lemma day_loop_spec from_currency cur (date_of : nat → Z) (ixs : list nat) acc s :
  for_in ixs (λ i acc, fetch_day w from_currency cur (date_of i) acc) acc s =
  (let obs := observations w from_currency cur (calls s) (date_of <$> ixs) in
   (Done (acc.1 ++ obs.*2, acc.2 ++ obs.*1),
    State (calls s + length ixs) (trace s ++ gets from_currency (date_of <$> ixs)))).
Proof.
  revert acc s. induction ixs as [|i ixs IH]; intros [rs ds] s.
  { destruct s. simpl. by rewrite !app_nil_r, Nat.add_0_r. }
  cbn [for_in]. rewrite bind_unfold, fetch_day_spec, IH. cbn.
  rewrite <- !app_assoc, Nat.add_succ_r. cbn.
  destruct (observed cur (upstream w (calls s) (Historical (date_of i) from_currency)));
    cbn; by rewrite <- ?app_assoc.
Qed.

Lemma trend_block_spec from_currency first rest rates rate s :
  rates !! first = Some rate →
  trend_block w from_currency (first :: rest) rates s =
  (let start_date := (today w - 30)%Z in
   let obs := observations w from_currency first (calls s) (window start_date) in
   (outcome (chart_call w obs) (Some start_date),
    State (calls s + 31)
      (trace s ++ StSubheader (Last30Days from_currency first)
         :: gets from_currency (window start_date) ++ chart obs))).
Proof.
  intros Hrate. unfold trend_block. rewrite Hrate.
  cbv zeta. rewrite bind_unfold. cbn [emit]. rewrite bind_unfold.
  rewrite (day_loop_spec from_currency first (λ i : nat, (today w - 30 + Z.of_nat i)%Z)).
  rewrite window_unfold. cbn [fst snd calls trace length range seq app].
  destruct (observations w from_currency first (calls s) (window (today w - 30)))
    as [|[d r] obs]; cbn [fmap list_fmap chart chart_call]; run_script;
    cbn [outcome app]; rewrite <- ?app_assoc, ?app_nil_r; [reflexivity|].
  destruct (altair_chart w (d :: obs.*1) (r :: obs.*2)) as [[]|e]; reflexivity.
Qed.

(** When the chart call returns, so does the block. *)
Lemma trend_block_returns from_currency first rest rates rate s :
  rates !! first = Some rate →
  chart_call w (observations w from_currency first (calls s) (window (today w - 30)))
  = Val () →
  trend_block w from_currency (first :: rest) rates s =
  (Done (Some (today w - 30)%Z),
   State (calls s + 31)
     (trace s ++ StSubheader (Last30Days from_currency first)
        :: gets from_currency (window (today w - 30))
        ++ chart (observations w from_currency first (calls s) (window (today w - 30))))).
Proof.
  intros Hrate Hchart. rewrite (trend_block_spec _ _ _ _ rate) by done.
  cbv zeta. by rewrite Hchart.
Qed.

Lemma trend_block_skipped from_currency to_currencies rates s :
  (∀ first, head to_currencies = Some first → rates !! first = None) →
  trend_block w from_currency to_currencies rates s = (Done None, s).
Proof.
  intros Hskip. destruct to_currencies as [|first rest]; [done|].
  unfold trend_block. by rewrite (Hskip first).
Qed.

(** The inner loop of the table, with [start_date] bound. *)
Lemma table_days_spec from_currency cur start_date acc s :
  for_in (range 31)
    (λ i acc,
       start ← read_name (Some start_date);
       fetch_day w from_currency cur (start + Z.of_nat i)%Z acc) acc s =
  (let obs := observations w from_currency cur (calls s) (window start_date) in
   (Done (acc.1 ++ obs.*2, acc.2 ++ obs.*1),
    State (calls s + 31) (trace s ++ gets from_currency (window start_date)))).
Proof.
  rewrite (for_in_ext _ _
             (λ i acc, fetch_day w from_currency cur (start_date + Z.of_nat i)%Z acc))
    by done.
  rewrite (day_loop_spec from_currency cur (λ i, (start_date + Z.of_nat i)%Z)).
  by rewrite window_unfold.
Qed.

Lemma table_loop_spec from_currency start_date to_currencies table_data s :
  for_in to_currencies
    (λ cur table_data,
       '(cur_rates, cur_dates) ←
         for_in (range 31)
           (λ i acc,
              start ← read_name (Some start_date);
              fetch_day w from_currency cur (start + Z.of_nat i)%Z acc)
           ([], []);
       mret (<[cur := (cur_dates, cur_rates)]> table_data))
    table_data s =
  (Done (table_of w from_currency start_date (calls s) to_currencies table_data),
   State (calls s + 31 * length to_currencies)
     (trace s ++ (to_currencies ≫= λ _, gets from_currency (window start_date)))).
Proof.
  revert table_data s.
  induction to_currencies as [|cur rest IH]; intros table_data s.
  { destruct s. simpl. by rewrite app_nil_r, Nat.add_0_r. }
  cbn [for_in]. rewrite !bind_unfold, table_days_spec.
  cbn -[window observations range]. rewrite IH. cbn -[window observations].
  rewrite <- app_assoc. do 2 f_equal. lia.
Qed.

Lemma table_of_insert from_currency start_date n to_currencies table_data cur :
  is_Some (table_data !! cur) →
  is_Some (table_of w from_currency start_date n to_currencies table_data !! cur).
Proof.
  revert n table_data.
  induction to_currencies as [|c rest IH]; intros n table_data Hcur; [done|].
  cbn [table_of]. apply IH. rewrite lookup_insert. case_decide; [by eexists|done].
Qed.

Lemma table_of_nonempty from_currency start_date n to_currencies :
  to_currencies ≠ [] →
  table_of w from_currency start_date n to_currencies ∅ ≠ ∅.
Proof.
  destruct to_currencies as [|cur rest]; [done|]. intros _ Hempty.
  destruct (table_of_insert from_currency start_date (n + 31) rest
              (<[cur := ((observations w from_currency cur n (window start_date)).*1,
                         (observations w from_currency cur n (window start_date)).*2)]> ∅)
              cur) as [x Hx].
  { rewrite lookup_insert_eq. by eexists. }
  cbn [table_of] in Hempty. rewrite Hempty in Hx. by rewrite lookup_empty in Hx.
Qed.

Lemma table_block_spec from_currency to_currencies start_date s :
  1 < length to_currencies →
  table_block w from_currency to_currencies (Some start_date) s =
  (let table_data := table_of w from_currency start_date (calls s) to_currencies ∅ in
   (outcome (st_dataframe w table_data) (),
    State (calls s + 31 * length to_currencies)
      (trace s ++ StSubheader Last30DaysAll
         :: (to_currencies ≫= λ _, gets from_currency (window start_date))
         ++ [StDataframe table_data]))).
Proof.
  intros Hlen. unfold table_block. rewrite decide_True by done.
  rewrite bind_unfold. cbn [emit]. rewrite bind_unfold, table_loop_spec.
  cbn [calls trace]. rewrite decide_False.
  - rewrite draw_unfold. cbn [calls trace]. by rewrite <- !app_assoc.
  - apply table_of_nonempty. intros ->. simpl in Hlen. lia.
Qed.

(** When the table call returns, so does the block. *)
Lemma table_block_returns from_currency to_currencies start_date s :
  1 < length to_currencies →
  st_dataframe w (table_of w from_currency start_date (calls s) to_currencies ∅) = Val () →
  table_block w from_currency to_currencies (Some start_date) s =
  (Done (),
   State (calls s + 31 * length to_currencies)
     (trace s ++ StSubheader Last30DaysAll
        :: (to_currencies ≫= λ _, gets from_currency (window start_date))
        ++ [StDataframe (table_of w from_currency start_date (calls s) to_currencies ∅)])).
Proof.
  intros Hlen Htable. rewrite table_block_spec by done. cbv zeta. by rewrite Htable.
Qed.

(** A table without a cell: the call returns. *)
Lemma cells_empty (table_data : gmap string (list Z * list json)) :
  (∀ cur series, table_data !! cur = Some series → series.2 = []) →
  cells table_data = [].
Proof.
  intros Hempty. unfold cells.
  assert (Forall (λ column : string * (list Z * list json), column.2.2 = [])
            (map_to_list table_data)) as Hall.
  { apply Forall_forall. intros [cur series] Hin%elem_of_map_to_list.
    exact (Hempty cur series Hin). }
  induction Hall as [|column l Hcolumn _ IH]; [done|].
  cbn [mbind list_bind]. by rewrite Hcolumn, IH.
Qed.

Lemma st_dataframe_empty (table_data : gmap string (list Z * list json)) :
  (∀ cur series, table_data !! cur = Some series → series.2 = []) →
  st_dataframe w table_data = Val ().
Proof. intros Hempty. unfold st_dataframe. by rewrite cells_empty. Qed.

Lemma table_block_single from_currency to_currencies start_date s :
  length to_currencies ≤ 1 →
  table_block w from_currency to_currencies start_date s = (Done (), s).
Proof. intros Hlen. unfold table_block. rewrite decide_False by lia. done. Qed.

(** With [start_date] unbound the first pass through line 118 raises. *)
Lemma table_block_unbound from_currency to_currencies s :
  1 < length to_currencies →
  table_block w from_currency to_currencies None s =
  (Raised NameError, State (calls s) (trace s ++ [StSubheader Last30DaysAll])).
Proof.
  intros Hlen. unfold table_block. rewrite decide_True by done.
  destruct to_currencies as [|cur rest]; [simpl in Hlen; lia|]. done.
Qed.

End Loops.


(** ** The snapshot projection *)

Lemma project_rates_fold (m : gmap string json) to_currencies (acc : gmap string json) :
  ∃ rates : gmap string json,
    foldl (λ acc cur,
             rates ← acc;
             b ← contains (JObj m) cur;
             if (b : bool) then v ← getitem (JObj m) cur; Val (<[cur := v]> rates)
             else Val rates)
          (Val acc) to_currencies = Val rates ∧
    ∀ t, rates !! t = if decide (t ∈ to_currencies ∧ is_Some (m !! t)) then m !! t
                      else acc !! t.
Proof.
  revert acc. induction to_currencies as [|cur rest IH]; intros acc.
  { exists acc. split; [done|]. intros t. rewrite decide_False; [done|].
    by intros [?%elem_of_nil _]. }
  cbn [foldl]. cbn [mbind py_bind contains getitem].
  destruct (m !! cur) as [v|] eqn:Hcur.
  - destruct (IH (<[cur := v]> acc)) as (rates & Heq & Hrates).
    exists rates. split; [exact Heq|]. intros t. rewrite Hrates.
    destruct (decide (t = cur)) as [->|Hne].
    + rewrite lookup_insert_eq, Hcur.
      rewrite (decide_True (P := cur ∈ cur :: rest ∧ _)); [by case_decide|].
      split; [left|by eexists].
    + rewrite lookup_insert_ne by done.
      apply decide_ext. rewrite elem_of_cons. tauto.
  - destruct (IH acc) as (rates & Heq & Hrates).
    exists rates. split; [exact Heq|]. intros t. rewrite Hrates.
    apply decide_ext. rewrite elem_of_cons. split; [tauto|].
    intros [[->|?] Hsome]; [|done]. rewrite Hcur in Hsome. by destruct Hsome.
Qed.

Lemma project_rates_obj (m : gmap string json) to_currencies :
  ∃ rates : gmap string json,
    project_rates (JObj m) to_currencies = Val rates ∧
    ∀ t, rates !! t = if decide (t ∈ to_currencies) then m !! t else None.
Proof.
  destruct (project_rates_fold m to_currencies ∅) as (rates & Heq & Hrates).
  exists rates. split; [done|]. intros t. rewrite Hrates, lookup_empty.
  destruct (decide (t ∈ to_currencies)) as [Hin|Hnin].
  - destruct (m !! t) as [v|] eqn:Ht; [|by case_decide].
    rewrite decide_True; [done|]. split; [done|by eexists].
  - rewrite decide_False; [done|]. by intros [? _].
Qed.

Lemma project_missing_fold (m : gmap string json) to_currencies (acc : list string) :
  foldl (λ acc cur,
           missing ← acc;
           b ← contains (JObj m) cur;
           if (b : bool) then Val missing else Val (missing ++ [cur]))
        (Val acc) to_currencies
  = Val (acc ++ filter (λ t, m !! t = None) to_currencies).
Proof.
  revert acc. induction to_currencies as [|cur rest IH]; intros acc.
  { by rewrite app_nil_r. }
  cbn [foldl]. cbn [mbind py_bind contains]. rewrite filter_cons.
  destruct (m !! cur) as [v|] eqn:Hcur.
  - rewrite decide_False by done. apply IH.
  - rewrite decide_True by done. etrans; [apply (IH (acc ++ [cur]))|].
    by rewrite <- app_assoc.
Qed.

Lemma project_missing_obj (m : gmap string json) to_currencies :
  project_missing (JObj m) to_currencies = Val (filter (λ t, m !! t = None) to_currencies).
Proof. apply (project_missing_fold m to_currencies []). Qed.

(** ** The latest-rates fetch *)


Lemma fetch_live_rates_success w from_currency to_currencies s m rates :
  success_with m (upstream w (calls s) (Latest from_currency)) →
  project_rates (JObj m) to_currencies = Val rates →
  fetch_live_rates w from_currency to_currencies s =
  (let missing := filter (λ t, m !! t = None) to_currencies in
   (Done (rates, missing),
    State (S (calls s)) (trace s ++ Get (Latest from_currency) :: warning missing))).
Proof.
  intros (fields & Hreply & Hst & Hrates) Hproj.
  unfold fetch_live_rates, try_except, get_json. rewrite bind_unfold, Hreply.
  cbn [json_of]. run_script. unfold getitem at 1. rewrite Hst. run_script.
  cbn [eq_str String.eqb Ascii.eqb Bool.eqb negb]. run_script.
  unfold getitem at 1. rewrite Hrates. run_script.
  rewrite Hproj. run_script. rewrite project_missing_obj. run_script.
  cbv zeta.
  destruct (filter (λ t, m !! t = None) to_currencies) as [|t0 miss];
    run_script; cbn [warning]; by rewrite <- ?app_assoc, ?app_nil_r.
Qed.

Lemma fetch_live_rates_failure w from_currency to_currencies s :
  fetch_failure (upstream w (calls s) (Latest from_currency)) →
  ∃ err,
    fetch_live_rates w from_currency to_currencies s =
    (Stopped,
     State (S (calls s)) (trace s ++ [Get (Latest from_currency); StError err])).
Proof.
  intros Hfail. unfold fetch_live_rates, try_except, get_json. rewrite bind_unfold.
  inversion Hfail as [Hr|j Hj Hr|fields Hst Hr|fields Hrates Hr|fields status Hst Hne Hr];
    cbn [json_of]; run_script.
  - eexists. by rewrite <- app_assoc.
  - assert (getitem j "result" = Raise TypeError) as ->.
    { destruct j; try done. by destruct (Hj m). }
    run_script. eexists. by rewrite <- app_assoc.
  - unfold getitem at 1. rewrite Hst. run_script. eexists. by rewrite <- app_assoc.
  - unfold getitem at 1.
    destruct (fields !! "result") as [status|]; run_script;
      [|eexists; by rewrite <- app_assoc].
    destruct (eq_str "success" status); cbn [negb]; run_script.
    + unfold getitem at 1. rewrite Hrates. run_script.
      eexists. by rewrite <- app_assoc.
    + eexists. by rewrite <- app_assoc.
  - unfold getitem at 1. rewrite Hst. run_script.
    destruct (eq_str "success" status) eqn:Heq.
    { by apply eq_str_true in Heq. }
    cbn [negb]. run_script. eexists. by rewrite <- app_assoc.
Qed.


(** Whatever the reply, the fetch ends normally or by [st.stop()], after
    exactly one request followed by notices only. *)
Lemma fetch_live_rates_shape w from_currency to_currencies s :
  ∃ r notices,
    fetch_live_rates w from_currency to_currencies s =
    (r, State (S (calls s)) (trace s ++ Get (Latest from_currency) :: notices)) ∧
    (∀ e, r ≠ Raised e) ∧
    Forall (λ e, is_notice e = true) notices.
Proof.
  unfold fetch_live_rates, try_except, get_json. rewrite bind_unfold.
  destruct (upstream w (calls s) (Latest from_currency)) as [|j]; cbn [json_of]; run_script.
  { do 2 eexists. rewrite <- app_assoc. split; [done|]. split; [done|]. by repeat constructor. }
  destruct (getitem j "result") as [status|e]; run_script.
  2:{ do 2 eexists. rewrite <- app_assoc. split; [done|]. split; [done|].
      by repeat constructor. }
  destruct (eq_str "success" status); cbn [negb]; run_script.
  2:{ do 2 eexists. rewrite <- app_assoc. split; [done|]. split; [done|].
      by repeat constructor. }
  destruct (getitem j "rates") as [all_rates|e]; run_script.
  2:{ do 2 eexists. rewrite <- app_assoc. split; [done|]. split; [done|].
      by repeat constructor. }
  destruct (project_rates all_rates to_currencies) as [rates|e]; run_script.
  2:{ do 2 eexists. rewrite <- app_assoc. split; [done|]. split; [done|].
      by repeat constructor. }
  destruct (project_missing all_rates to_currencies) as [[|t missing]|e]; run_script.
  - exists (Done (rates, [])), []. done.
  - exists (Done (rates, t :: missing)), [StWarning (CurrenciesNotFound (t :: missing))].
    rewrite <- app_assoc. split; [done|]. split; [done|]. by repeat constructor.
  - do 2 eexists. rewrite <- app_assoc. split; [done|]. split; [done|].
    by repeat constructor.
Qed.

(** ** The conversion cards *)

Lemma cards_loop_shape amount (rates : gmap string json) (l : list (nat * string)) s :
  ∃ r cards,
    for_in l
      (λ '(i, to_cur) _,
         match rates !! to_cur with
         | Some rate =>
             converted ← eval (py_mul amount rate);
             emit (StMetric i to_cur converted rate)
         | None => mret ()
         end) () s =
    (r, State (calls s) (trace s ++ cards)) ∧
    r ≠ Stopped ∧
    Forall (λ e, is_card e = true) cards ∧
    ((∀ i t rate, (i, t) ∈ l → rates !! t = Some rate → ∃ c, py_mul amount rate = Val c) →
     r = Done ()).
Proof.
  revert s. induction l as [|[i to_cur] l IH]; intros s.
  { exists (Done ()), []. destruct s. cbn. by rewrite app_nil_r. }
  cbn [for_in]. rewrite bind_unfold.
  destruct (rates !! to_cur) as [rate|] eqn:Hrate.
  - rewrite bind_unfold. destruct (py_mul amount rate) as [c|e] eqn:Hmul; run_script.
    + destruct (IH (State (calls s) (trace s ++ [StMetric i to_cur c rate])))
        as (r & cards & -> & Hr & Hcards & Hdone).
      exists r, (StMetric i to_cur c rate :: cards). cbn. rewrite <- app_assoc.
      split; [done|]. split; [done|]. split; [by constructor|].
      intros Hnum. apply Hdone. intros i' t' rate' Hin. apply (Hnum i'). by right.
    + exists (Raised e), []. rewrite app_nil_r. destruct s. split; [done|].
      split; [done|]. split; [done|]. intros Hnum.
      destruct (Hnum i to_cur rate) as [c Hc]; [left|done|congruence].
  - run_script. destruct (IH s) as (r & cards & -> & Hr & Hcards & Hdone).
    exists r, cards. split; [done|]. split; [done|]. split; [done|].
    intros Hnum. apply Hdone. intros i' t' rate' Hin. apply (Hnum i'). by right.
Qed.

Lemma elem_of_enumerate {A} (l : list A) i x : (i, x) ∈ enumerate l → x ∈ l.
Proof. unfold enumerate. intros Hin. by apply elem_of_zip_r in Hin. Qed.

Lemma conversion_cards_shape from_currency to_currencies amount rates s :
  ∃ r cards,
    conversion_cards from_currency to_currencies amount rates s =
    (r, State (calls s) (trace s ++ StSubheader ConversionResults :: cards)) ∧
    r ≠ Stopped ∧
    Forall (λ e, is_card e = true) cards ∧
    ((∀ t rate, t ∈ to_currencies → rates !! t = Some rate →
        ∃ c, py_mul amount rate = Val c) →
     r = Done ()).
Proof.
  unfold conversion_cards. rewrite bind_unfold. run_script.
  destruct to_currencies as [|t rest].
  { run_script. exists (Done ()), [StWarning SelectTarget]. cbn.
    rewrite <- app_assoc. split; [done|]. split; [done|]. split; [by repeat constructor|done]. }
  destruct (cards_loop_shape amount rates (enumerate (t :: rest))
              (State (calls s) (trace s ++ [StSubheader ConversionResults])))
    as (r & cards & Heq & Hr & Hcards & Hdone).
  exists r, cards. cbn in Heq. rewrite <- app_assoc in Heq.
  split; [exact Heq|]. split; [done|]. split; [done|].
  intros Hnum. apply Hdone. intros i t' rate Hin. apply Hnum.
  by eapply elem_of_enumerate.
Qed.


(** ** The table *)

Section Table.
Variables (w : world) (from_currency : string) (start_date : Z).

Lemma observations_increasing cur n :
  increasing (observations w from_currency cur n (window start_date)).*1.
Proof.
  eapply sublist_sorted; [apply observations_dates_sublist|apply window_sorted].
Qed.

Lemma table_of_increasing n to_currencies (table_data : gmap string (list Z * list json)) :
  (∀ cur series, table_data !! cur = Some series → increasing series.1) →
  ∀ cur series,
    table_of w from_currency start_date n to_currencies table_data !! cur = Some series →
    increasing series.1.
Proof.
  revert n table_data.
  induction to_currencies as [|c rest IH]; intros n table_data Hinc; [done|].
  cbn [table_of]. apply IH. intros cur series. rewrite lookup_insert.
  case_decide; [|by apply Hinc].
  intros [= <-]. exact (observations_increasing c n).
Qed.

Lemma table_of_not_elem n to_currencies (table_data : gmap string (list Z * list json)) cur :
  cur ∉ to_currencies →
  table_of w from_currency start_date n to_currencies table_data !! cur
  = table_data !! cur.
Proof.
  revert n table_data.
  induction to_currencies as [|c rest IH]; intros n table_data Hcur; [done|].
  apply not_elem_of_cons in Hcur as [Hne Hcur].
  cbn [table_of]. rewrite IH by done. by rewrite lookup_insert_ne.
Qed.

(** The series of a currency is the one of its last occurrence in
    [to_currencies]. *)
Lemma table_of_lookup n to_currencies (table_data : gmap string (list Z * list json))
    (j : nat) cur :
  to_currencies !! j = Some cur →
  cur ∉ drop (S j) to_currencies →
  table_of w from_currency start_date n to_currencies table_data !! cur
  = Some (let obs := observations w from_currency cur (n + 31 * j) (window start_date) in
          (obs.*1, obs.*2)).
Proof.
  revert n table_data j.
  induction to_currencies as [|c rest IH]; intros n table_data j Hj Hlast; [done|].
  destruct j as [|j]; simpl in Hj, Hlast.
  - injection Hj as ->. rewrite drop_0 in Hlast. cbn [table_of].
    rewrite table_of_not_elem by done.
    by rewrite lookup_insert_eq, Nat.mul_0_r, Nat.add_0_r.
  - cbn [table_of]. rewrite (IH _ _ j) by done. cbv zeta.
    replace (n + 31 + 31 * j) with (n + 31 * S j) by lia. reflexivity.
Qed.

End Table.

(** ** Every event of a run is well formed *)

Lemma preserves_bind {A B} (P : state → Prop) (m : script A) (f : A → script B) :
  preserves P m → (∀ a, preserves P (f a)) → preserves P (m ≫= f).
Proof.
  intros Hm Hf s Hs. rewrite bind_unfold. specialize (Hm s Hs).
  destruct (m s) as [[a| |e] s']; simpl in *; [by apply Hf|done..].
Qed.

Lemma proceeds_bind {A B} (Q : event → Prop) (m : script A) (f : A → script B) :
  proceeds Q m → (∀ a, proceeds Q (f a)) → proceeds Q (m ≫= f).
Proof.
  intros Hm Hf s. rewrite bind_unfold. destruct (Hm s) as (evs & Htrace & Hevs & Hres).
  destruct (m s) as [[a| |e] s']; cbn [fst snd] in *; [|done|by exists evs].
  destruct (Hf a s') as (evs' & Htrace' & Hevs' & Hres').
  exists (evs ++ evs'). rewrite Htrace', Htrace, <- app_assoc.
  split; [done|]. split; [by apply Forall_app|done].
Qed.

Lemma proceeds_preserves {A} base (m : script A) :
  proceeds (rendering base) m → preserves (well_formed base) m.
Proof.
  intros Hm s Hs. destruct (Hm s) as (evs & Htrace & Hevs & _).
  unfold well_formed. rewrite Htrace. apply Forall_app. split; [done|].
  eapply Forall_impl; [exact Hevs|]. by intros e [? _].
Qed.

Lemma outcome_proceeds {A} (ending : py unit) (a : A) : outcome ending a ≠ Stopped.
Proof. by destruct ending. Qed.

Lemma outcome_raised {A} (ending : py unit) (a : A) e :
  outcome ending a = Raised e → ending = Raise e.
Proof. destruct ending; [done|]. by intros [= ->]. Qed.

Lemma gets_rendering base ds : Forall (rendering base) (gets base ds).
Proof. apply Forall_fmap, Forall_forall. by intros d _. Qed.

Lemma fetch_live_rates_preserves w from_currency to_currencies :
  preserves (well_formed from_currency) (fetch_live_rates w from_currency to_currencies).
Proof.
  intros s Hs.
  destruct (fetch_live_rates_shape w from_currency to_currencies s)
    as (r & notices & -> & _ & Hnotices).
  apply Forall_app. split; [done|]. constructor; [done|].
  eapply Forall_impl; [exact Hnotices|]. by intros [].
Qed.

Lemma conversion_cards_proceeds base to_currencies amount rates :
  proceeds (rendering base) (conversion_cards base to_currencies amount rates).
Proof.
  intros s.
  destruct (conversion_cards_shape base to_currencies amount rates s)
    as (r & cards & -> & Hr & Hcards & _).
  eexists. split; [done|]. split; [|done]. constructor; [done|].
  eapply Forall_impl; [exact Hcards|]. by intros [| |[]| | | |].
Qed.

Lemma trend_block_proceeds w from_currency to_currencies rates :
  proceeds (rendering from_currency) (trend_block w from_currency to_currencies rates).
Proof.
  intros s. destruct to_currencies as [|first rest].
  { exists []. by rewrite app_nil_r. }
  destruct (rates !! first) as [rate|] eqn:Hrate.
  - rewrite (trend_block_spec _ _ _ _ _ rate) by done. cbv zeta. cbn [fst snd trace].
    eexists. split; [done|]. split; [|apply outcome_proceeds]. constructor; [done|].
    apply Forall_app. split; [apply gets_rendering|].
    destruct (observations w from_currency first (calls s) (window (today w - 30)))
      as [|o obs] eqn:Hobs; [done|].
    constructor; [|done]. split; [|done]. split; [done|]. cbn [series_increasing].
    rewrite <- Hobs. apply observations_increasing.
  - rewrite trend_block_skipped; [|by intros ? [= <-]].
    exists []. by rewrite app_nil_r.
Qed.

Lemma table_block_proceeds w from_currency to_currencies start_date :
  proceeds (rendering from_currency) (table_block w from_currency to_currencies start_date).
Proof.
  intros s. destruct (decide (1 < length to_currencies)) as [Hlen|Hlen].
  2:{ rewrite table_block_single by lia. exists []. by rewrite app_nil_r. }
  destruct start_date as [start_date|].
  - rewrite table_block_spec by done. cbv zeta. cbn [fst snd trace].
    eexists. split; [done|]. split; [|apply outcome_proceeds]. constructor; [done|].
    apply Forall_app. split.
    + clear. induction to_currencies as [|c rest IH]; [done|].
      cbn [mbind list_bind]. apply Forall_app. split; [apply gets_rendering|apply IH].
    + constructor; [|done]. split; [|done]. split; [done|]. cbn [series_increasing].
      by apply table_of_increasing.
  - rewrite table_block_unbound by done. cbn [fst snd trace].
    eexists. split; [done|]. split; [|done]. by constructor.
Qed.

(** Everything after the latest-rates fetch. *)
Lemma render_proceeds w from_currency to_currencies amount rates :
  proceeds (rendering from_currency)
    (conversion_cards from_currency to_currencies amount rates ≫= λ _,
     trend_block w from_currency to_currencies rates ≫= λ start_date,
     table_block w from_currency to_currencies start_date).
Proof.
  apply proceeds_bind; [apply conversion_cards_proceeds|]. intros _.
  apply proceeds_bind; [apply trend_block_proceeds|]. intros start_date.
  apply table_block_proceeds.
Qed.

Lemma main_preserves w i :
  preserves (well_formed (sidebar i).1) (main w i).
Proof.
  unfold main. destruct (sidebar i) as [from_currency to_currencies]. cbn [fst].
  apply preserves_bind; [apply fetch_live_rates_preserves|]. intros [rates missing].
  apply proceeds_preserves, render_proceeds.
Qed.

(** ** The run after a successful fetch, and after a failed one *)

Lemma main_success w i s from_currency to_currencies m rates :
  sidebar i = (from_currency, to_currencies) →
  success_with m (upstream w (calls s) (Latest from_currency)) →
  project_rates (JObj m) to_currencies = Val rates →
  main w i s =
  (conversion_cards from_currency to_currencies (amount i) rates ≫= λ _,
   trend_block w from_currency to_currencies rates ≫= λ start_date,
   table_block w from_currency to_currencies start_date)
    (State (S (calls s))
       (trace s ++ Get (Latest from_currency)
          :: warning (filter (λ t, m !! t = None) to_currencies))).
Proof.
  intros Hsidebar Hok Hproj. unfold main. rewrite Hsidebar, bind_unfold.
  by rewrite (fetch_live_rates_success _ _ _ _ m rates).
Qed.

Lemma main_failure w i s :
  fetch_failure (upstream w (calls s) (Latest (sidebar i).1)) →
  ∃ err,
    main w i s =
    (Stopped, State (S (calls s)) (trace s ++ [Get (Latest (sidebar i).1); StError err])).
Proof.
  intros Hfail. unfold main. destruct (sidebar i) as [from_currency to_currencies].
  destruct (fetch_live_rates_failure w from_currency to_currencies s Hfail) as [err Herr].
  exists err. by rewrite bind_unfold, Herr.
Qed.


(** ** Counting requests *)

Lemma fetches_app evs1 evs2 : fetches (evs1 ++ evs2) = fetches evs1 ++ fetches evs2.
Proof. apply omap_app. Qed.

Lemma fetches_gets from_currency ds :
  fetches (gets from_currency ds) = (λ d, Historical d from_currency) <$> ds.
Proof. induction ds as [|d ds IH]; [done|]. cbn. by f_equal. Qed.

Lemma fetches_subheader h evs : fetches (StSubheader h :: evs) = fetches evs.
Proof. reflexivity. Qed.

Lemma fetches_table from_currency start_date (to_currencies : list string) :
  fetches (to_currencies ≫= λ _, gets from_currency (window start_date))
  = (to_currencies ≫= λ _, (λ d, Historical d from_currency) <$> window start_date).
Proof.
  induction to_currencies as [|cur rest IH]; [done|].
  cbn [mbind list_bind]. by rewrite fetches_app, fetches_gets, IH.
Qed.

Lemma filter_eq_not_elem {A} `{EqDecision A} (x : A) (l : list A) :
  x ∉ l → filter (x =.) l = [].
Proof.
  induction l as [|y l IH]; [done|]. intros [Hne Hx]%not_elem_of_cons.
  rewrite filter_cons, decide_False by done. by apply IH.
Qed.

Lemma count_NoDup {A} `{EqDecision A} (x : A) (l : list A) :
  NoDup l → x ∈ l → length (filter (x =.) l) = 1.
Proof.
  induction 1 as [|y l Hy Hnd IH]; [by intros ?%elem_of_nil|].
  rewrite filter_cons. intros [->|Hx]%elem_of_cons.
  - rewrite decide_True by done. by rewrite filter_eq_not_elem.
  - rewrite decide_False; [by apply IH|]. by intros ->.
Qed.

Lemma times_fetched_window from_currency start_date d :
  d ∈ window start_date →
  length (filter (Historical d from_currency =.)
            ((λ d, Historical d from_currency) <$> window start_date)) = 1.
Proof.
  intros Hd. apply count_NoDup.
  - apply NoDup_fmap_2; [by intros ?? [= ->]|apply window_NoDup].
  - apply list_elem_of_fmap. by exists d.
Qed.

Lemma times_fetched_table from_currency start_date (to_currencies : list string) d :
  d ∈ window start_date →
  times_fetched (Historical d from_currency)
    (to_currencies ≫= λ _, gets from_currency (window start_date))
  = length to_currencies.
Proof.
  intros Hd. unfold times_fetched.
  induction to_currencies as [|cur rest IH]; [done|].
  cbn [mbind list_bind]. rewrite fetches_app, filter_app, length_app, fetches_gets.
  rewrite times_fetched_window by done. cbn [length]. by rewrite IH.
Qed.

(** ** One bad day *)

Lemma observations_absorbs w from_currency cur n start_date :
  absorbs w from_currency cur n start_date
    (observations w from_currency cur n (window start_date)).
Proof.
  intros k Hk. cbv zeta. split.
  - intros m rate Hok Hrate.
    apply elem_of_observations; [apply window_NoDup|].
    exists k. split; [by apply window_lookup|].
    by rewrite (observed_success cur m).
  - intros Hfail [[d rate] [Hd Hin]]%list_elem_of_fmap. cbn [fst] in Hd.
    apply elem_of_observations in Hin as (k' & Hk' & Hobs); [|apply window_NoDup].
    apply window_lookup_Some in Hk' as [Hk' Heq].
    assert (k' = k) as -> by lia. rewrite <- Hd in Hobs.
    by rewrite (observed_failed cur _ Hfail) in Hobs.
Qed.

(** ** A full series *)

Lemma chart_nonempty obs :
  obs ≠ [] → chart obs = [StAltairChart obs.*1 obs.*2].
Proof. by destruct obs. Qed.

Lemma observations_fixed w from_currency cur n ds fixed :
  (∀ (k : nat) d, ds !! k = Some d →
     observed cur (upstream w (n + k) (Historical d from_currency)) = Some fixed) →
  observations w from_currency cur n ds = (λ d, (d, fixed)) <$> ds.
Proof.
  intros Hall. rewrite (observations_all w from_currency cur n ds (λ _ _, fixed)) by done.
  apply (imap_const (λ d, (d, fixed))).
Qed.

Lemma fixed_series_dates (fixed : json) (ds : list Z) :
  ((λ d, (d, fixed)) <$> ds).*1 = ds.
Proof. induction ds as [|d ds IH]; [done|]. cbn. by f_equal. Qed.

Lemma fixed_series_rates (fixed : json) (ds : list Z) :
  ((λ d, (d, fixed)) <$> ds).*2 = replicate (length ds) fixed.
Proof. induction ds as [|d ds IH]; [done|]. cbn. by f_equal. Qed.

(** ** The base of every request *)

Lemma fetches_requests_base base evs :
  Forall (well_formed_event base) evs →
  Forall (λ ep, base_of ep = base) (fetches evs).
Proof.
  induction 1 as [|e evs [He _] _ IH]; [constructor|].
  destruct e; cbn; try done. by constructor.
Qed.

(** ** The run after the cards *)

Lemma sidebar_eta i : sidebar i = (base_currency i, targets i).
Proof. unfold base_currency, targets. by destruct (sidebar i). Qed.

Lemma fetches_warning missing : fetches (warning missing) = [].
Proof. by destruct missing. Qed.

Lemma fetches_is_card cards : Forall (λ e, is_card e = true) cards → fetches cards = [].
Proof.
  induction 1 as [|e cards He _ IH]; [done|].
  destruct e as [| |[]| | | |]; try done.
Qed.

Lemma fetches_chart obs : fetches (chart obs) = [].
Proof. by destruct obs. Qed.

Lemma fetches_trend_events w i first :
  fetches (trend_events w i first)
  = (λ d, Historical d (base_currency i)) <$> window (first_day w).
Proof.
  unfold trend_events.
  by rewrite fetches_subheader, fetches_app, fetches_gets, fetches_chart, app_nil_r.
Qed.

Lemma fetches_table_events w i :
  fetches (table_events w i)
  = (targets i ≫= λ _, (λ d, Historical d (base_currency i)) <$> window (first_day w)).
Proof.
  unfold table_events.
  rewrite fetches_subheader, fetches_app, fetches_table. cbn [fetches omap].
  by rewrite app_nil_r.
Qed.

Lemma trend_block_available w from_currency to_currencies rates first rate s :
  head to_currencies = Some first →
  rates !! first = Some rate →
  trend_block w from_currency to_currencies rates s =
  (let obs := observations w from_currency first (calls s) (window (today w - 30)) in
   (outcome (chart_call w obs) (Some (today w - 30)%Z),
    State (calls s + 31)
      (trace s ++ StSubheader (Last30Days from_currency first)
         :: gets from_currency (window (today w - 30)) ++ chart obs))).
Proof.
  intros Hhead Hrate. destruct to_currencies as [|t rest]; [done|].
  injection Hhead as ->. by rewrite (trend_block_spec _ _ _ _ _ rate).
Qed.

(** The two history blocks of a run whose first target has a rate: the
    trend, then the table if more than one target is selected and the
    chart has not raised. *)
Lemma history_blocks w i rates first rate pre :
  head (targets i) = Some first →
  rates !! first = Some rate →
  (trend_block w (base_currency i) (targets i) rates ≫= λ start_date,
   table_block w (base_currency i) (targets i) start_date) (State 1 pre) =
  (if decide (1 < length (targets i)) then
     match chart_call w (trend_series w i first) with
     | Val _ =>
         (outcome (st_dataframe w (table_series w i)) (),
          State (32 + 31 * length (targets i))
            (pre ++ trend_events w i first ++ table_events w i))
     | Raise e => (Raised e, State 32 (pre ++ trend_events w i first))
     end
   else
     (outcome (chart_call w (trend_series w i first)) (),
      State 32 (pre ++ trend_events w i first))).
Proof.
  intros Hhead Hrate.
  rewrite bind_unfold, (trend_block_available _ _ _ _ first rate) by done.
  cbv zeta. cbn [calls trace].
  unfold trend_series, table_series, trend_events, table_events, first_day.
  change (1 + 31) with 32.
  destruct (chart_call w
              (observations w (base_currency i) first 1 (window (today w - 30))))
    as [[]|e]; cbn [outcome].
  - destruct (decide (1 < length (targets i))) as [Hlen|Hlen].
    + rewrite table_block_spec by done. cbv zeta. cbn [calls trace].
      by rewrite <- !app_assoc.
    + by rewrite table_block_single by lia.
  - by destruct (decide (1 < length (targets i))).
Qed.

Lemma run_after_cards w i m :
  success_with m (latest_reply w i) →
  (∀ t rate, t ∈ targets i → m !! t = Some rate →
     ∃ converted, py_mul (amount i) rate = Val converted) →
  ∃ rates cards,
    (∀ t, t ∈ targets i → rates !! t = m !! t) ∧
    Forall (λ e, is_card e = true) cards ∧
    run w i =
    (trend_block w (base_currency i) (targets i) rates ≫= λ start_date,
     table_block w (base_currency i) (targets i) start_date)
      (State 1
         (Get (Latest (base_currency i))
            :: warning (filter (λ t, m !! t = None) (targets i))
            ++ StSubheader ConversionResults :: cards)).
Proof.
  intros Hok Hnumbers.
  destruct (project_rates_obj m (targets i)) as (rates & Hproj & Hrates).
  assert (∀ t, t ∈ targets i → rates !! t = m !! t) as Hin.
  { intros t Ht. by rewrite Hrates, decide_True. }
  unfold run.
  rewrite (main_success w i init (base_currency i) (targets i) m rates)
    by (done || apply sidebar_eta).
  cbn [calls trace init app]. rewrite bind_unfold.
  destruct (conversion_cards_shape (base_currency i) (targets i) (amount i) rates
              (State 1 (Get (Latest (base_currency i))
                          :: warning (filter (λ t, m !! t = None) (targets i)))))
    as (r & cards & -> & _ & Hcards & Hdone).
  rewrite Hdone.
  2:{ intros t rate Ht Hrate. rewrite Hin in Hrate by done. by eapply Hnumbers. }
  exists rates, cards. split; [done|]. split; [done|]. reflexivity.
Qed.

(** A run whose latest-rates reply is a success that carries the first
    target, with numbers for rates, gets to the history: how it ends is
    up to the chart and the table. *)
Lemma run_with_history w i m first :
  success_with m (latest_reply w i) →
  head (targets i) = Some first →
  is_Some (m !! first) →
  (∀ t rate, t ∈ targets i → m !! t = Some rate →
     ∃ converted, py_mul (amount i) rate = Val converted) →
  ∃ cards,
    Forall (λ e, is_card e = true) cards ∧
    run w i =
    (let pre := Get (Latest (base_currency i))
                  :: warning (filter (λ t, m !! t = None) (targets i))
                  ++ StSubheader ConversionResults :: cards in
     if decide (1 < length (targets i)) then
       match chart_call w (trend_series w i first) with
       | Val _ =>
           (outcome (st_dataframe w (table_series w i)) (),
            State (32 + 31 * length (targets i))
              (pre ++ trend_events w i first ++ table_events w i))
       | Raise e => (Raised e, State 32 (pre ++ trend_events w i first))
       end
     else
       (outcome (chart_call w (trend_series w i first)) (),
        State 32 (pre ++ trend_events w i first))).
Proof.
  intros Hok Hhead [rate Hfirst] Hnumbers.
  destruct (run_after_cards w i m Hok Hnumbers) as (rates & cards & Hin & Hcards & ->).
  exists cards. split; [done|]. cbv zeta.
  apply (history_blocks w i rates first rate); [done|].
  rewrite Hin; [done|]. destruct (targets i); [done|]. injection Hhead as ->. left.
Qed.

(** The requests of such a run. *)
Lemma fetches_pre i (m : gmap string json) cards :
  Forall (λ e, is_card e = true) cards →
  fetches (Get (Latest (base_currency i))
             :: warning (filter (λ t, m !! t = None) (targets i))
             ++ StSubheader ConversionResults :: cards)
  = [Latest (base_currency i)].
Proof.
  intros Hcards. change (Get ?ep :: ?l) with ([Get ep] ++ l).
  rewrite !fetches_app, fetches_warning, fetches_subheader.
  by rewrite (fetches_is_card cards).
Qed.


(* ===================================================================== *)
(** * The whole run *)
(* ===================================================================== *)

(** ** The projection on any JSON value *)

Lemma project_rates_raise all_rates to_currencies e :
  foldl (λ (acc : py (gmap string json)) cur,
           rates ← acc;
           b ← contains all_rates cur;
           if (b : bool) then v ← getitem all_rates cur; Val (<[cur := v]> rates)
           else Val rates)
        (Raise e) to_currencies = Raise e.
Proof. induction to_currencies as [|cur rest IH]; [done|]. exact IH. Qed.

Lemma project_rates_sound_fold all_rates to_currencies (acc rates : gmap string json) :
  foldl (λ acc cur,
           rates ← acc;
           b ← contains all_rates cur;
           if (b : bool) then v ← getitem all_rates cur; Val (<[cur := v]> rates)
           else Val rates)
        (Val acc) to_currencies = Val rates →
  ∀ t rate, rates !! t = Some rate →
    acc !! t = Some rate ∨ (t ∈ to_currencies ∧ getitem all_rates t = Val rate).
Proof.
  revert acc. induction to_currencies as [|cur rest IH]; intros acc Hfold t rate Ht.
  { injection Hfold as ->. by left. }
  cbn [foldl] in Hfold. cbn [mbind py_bind] in Hfold.
  destruct (contains all_rates cur) as [[]|e] eqn:Hin; cbn [mbind py_bind] in Hfold.
  - destruct (getitem all_rates cur) as [v|e] eqn:Hv; cbn [mbind py_bind] in Hfold.
    + destruct (IH _ Hfold t rate Ht) as [Hacc|[Hrest Hrate]].
      * destruct (decide (cur = t)) as [->|Hne].
        -- rewrite lookup_insert_eq in Hacc. injection Hacc as ->.
           right. split; [left|done].
        -- rewrite lookup_insert_ne in Hacc by done. by left.
      * right. split; [by right|done].
    + by rewrite project_rates_raise in Hfold.
  - destruct (IH _ Hfold t rate Ht) as [Hacc|[Hrest Hrate]]; [by left|].
    right. split; [by right|done].
  - by rewrite project_rates_raise in Hfold.
Qed.

Lemma project_rates_sound all_rates to_currencies rates :
  project_rates all_rates to_currencies = Val rates →
  ∀ t rate, rates !! t = Some rate →
    t ∈ to_currencies ∧ getitem all_rates t = Val rate.
Proof.
  intros Hproj t rate Ht.
  destruct (project_rates_sound_fold all_rates to_currencies ∅ rates Hproj t rate Ht)
    as [Hempty|?]; [|done].
  by rewrite lookup_empty in Hempty.
Qed.

Lemma project_rates_scalar all_rates t rest :
  scalar all_rates = true →
  project_rates all_rates (t :: rest) = Raise TypeError.
Proof.
  intros Hscalar. unfold project_rates. cbn [foldl].
  destruct all_rates; try discriminate Hscalar; apply project_rates_raise.
Qed.

Lemma project_missing_raise all_rates to_currencies e :
  foldl (λ (acc : py (list string)) cur,
           missing ← acc;
           b ← contains all_rates cur;
           if (b : bool) then Val missing else Val (missing ++ [cur]))
        (Raise e) to_currencies = Raise e.
Proof. induction to_currencies as [|cur rest IH]; [done|]. exact IH. Qed.

(** The comprehensions go through when the test and the lookup do, for
    every target. *)
Lemma project_rates_probe all_rates to_currencies (acc : gmap string json) :
  (∀ t, t ∈ to_currencies → ∃ b, probe all_rates t = Val b) →
  ∃ rates : gmap string json,
    foldl (λ acc cur,
             rates ← acc;
             b ← contains all_rates cur;
             if (b : bool) then v ← getitem all_rates cur; Val (<[cur := v]> rates)
             else Val rates)
          (Val acc) to_currencies = Val rates.
Proof.
  revert acc. induction to_currencies as [|cur rest IH]; intros acc Hprobe.
  { by exists acc. }
  cbn [foldl]. cbn [mbind py_bind].
  destruct (Hprobe cur) as [b Hb]; [left|]. unfold probe in Hb.
  assert (∀ t, t ∈ rest → ∃ b, probe all_rates t = Val b) as Hrest.
  { intros t Ht. apply Hprobe. by right. }
  destruct (contains all_rates cur) as [[]|e]; cbn [mbind py_bind] in *; [|by apply IH|done].
  destruct (getitem all_rates cur) as [v|e]; cbn [mbind py_bind] in *; [by apply IH|done].
Qed.

Lemma project_missing_probe all_rates to_currencies (acc : list string) :
  (∀ t, t ∈ to_currencies → ∃ b, probe all_rates t = Val b) →
  foldl (λ acc cur,
           missing ← acc;
           b ← contains all_rates cur;
           if (b : bool) then Val missing else Val (missing ++ [cur]))
        (Val acc) to_currencies
  = Val (acc ++ filter (λ t, lacks all_rates t = true) to_currencies).
Proof.
  revert acc. induction to_currencies as [|cur rest IH]; intros acc Hprobe.
  { by rewrite app_nil_r. }
  cbn [foldl]. cbn [mbind py_bind]. rewrite filter_cons.
  destruct (Hprobe cur) as [b Hb]; [left|]. unfold probe in Hb.
  assert (∀ t, t ∈ rest → ∃ b, probe all_rates t = Val b) as Hrest.
  { intros t Ht. apply Hprobe. by right. }
  destruct (contains all_rates cur) as [[]|e] eqn:Hcur; cbn [mbind py_bind] in *;
    [| |done].
  - rewrite decide_False by (unfold lacks; by rewrite Hcur). by apply IH.
  - rewrite decide_True by (unfold lacks; by rewrite Hcur).
    rewrite (IH (acc ++ [cur])) by done. by rewrite <- app_assoc.
Qed.

(** They raise as soon as one of the two raises, for one target. *)
Lemma project_rates_probe_raise all_rates to_currencies (acc : gmap string json) t e :
  t ∈ to_currencies →
  probe all_rates t = Raise e →
  ∃ e',
    foldl (λ acc cur,
             rates ← acc;
             b ← contains all_rates cur;
             if (b : bool) then v ← getitem all_rates cur; Val (<[cur := v]> rates)
             else Val rates)
          (Val acc) to_currencies = Raise e'.
Proof.
  intros Ht Hraise. revert acc.
  induction to_currencies as [|cur rest IH]; intros acc; [by apply elem_of_nil in Ht|].
  cbn [foldl]. cbn [mbind py_bind].
  destruct (decide (t = cur)) as [->|Hne].
  - unfold probe in Hraise.
    destruct (contains all_rates cur) as [[]|e0]; cbn [mbind py_bind] in *.
    + destruct (getitem all_rates cur) as [v|e0]; cbn [mbind py_bind] in *; [done|].
      exists e0. apply project_rates_raise.
    + done.
    + exists e0. apply project_rates_raise.
  - apply elem_of_cons in Ht as [?|Ht]; [done|].
    destruct (contains all_rates cur) as [[]|e0]; cbn [mbind py_bind].
    + destruct (getitem all_rates cur) as [v|e0]; cbn [mbind py_bind]; [by apply IH|].
      exists e0. apply project_rates_raise.
    + by apply IH.
    + exists e0. apply project_rates_raise.
Qed.

Lemma lacks_obj (m : gmap string json) t : lacks (JObj m) t = true ↔ m !! t = None.
Proof. unfold lacks, contains. by destruct (m !! t). Qed.

Lemma probe_obj (m : gmap string json) t : ∃ b, probe (JObj m) t = Val b.
Proof. unfold probe, contains, getitem. destruct (m !! t); by eexists. Qed.

(** ** The product on a card *)

Lemma py_mul_raise amount v e :
  py_mul amount v = Raise e → e = TypeError ∨ e = OverflowError.
Proof.
  destruct v; cbn; try (intros [= <-]; by left); try discriminate.
  destruct (float_of_int z) as [f|e'] eqn:Hf; cbn; [discriminate|].
  intros [= <-]. right. unfold float_of_int in Hf.
  by destruct (binary_normalize _ _ _ _ _); try discriminate Hf; injection Hf as <-.
Qed.

(** ** The latest-rates block, case by case *)

Lemma fetch_live_rates_cases w from_currency to_currencies s :
  (∃ err,
     fetch_live_rates w from_currency to_currencies s =
     (Stopped,
      State (S (calls s)) (trace s ++ [Get (Latest from_currency); StError err]))) ∨
  (∃ rates missing,
     fetch_live_rates w from_currency to_currencies s =
     (Done (rates, missing),
      State (S (calls s)) (trace s ++ Get (Latest from_currency) :: warning missing)) ∧
     ∀ t rate, rates !! t = Some rate →
       t ∈ to_currencies ∧
       reply_rate (upstream w (calls s) (Latest from_currency)) t = Val rate).
Proof.
  unfold fetch_live_rates, try_except, get_json, reply_rate. rewrite bind_unfold.
  destruct (upstream w (calls s) (Latest from_currency)) as [|j]; cbn [json_of]; run_script.
  { left. eexists. by rewrite <- app_assoc. }
  destruct (getitem j "result") as [status|e]; run_script.
  2:{ left. eexists. by rewrite <- app_assoc. }
  destruct (eq_str "success" status); cbn [negb]; run_script.
  2:{ left. eexists. by rewrite <- app_assoc. }
  cbn [mbind py_bind].
  destruct (getitem j "rates") as [all_rates|e]; run_script.
  2:{ left. eexists. by rewrite <- app_assoc. }
  destruct (project_rates all_rates to_currencies) as [rates|e] eqn:Hproj; run_script.
  2:{ left. eexists. by rewrite <- app_assoc. }
  destruct (project_missing all_rates to_currencies) as [missing|e]; run_script.
  2:{ left. eexists. by rewrite <- app_assoc. }
  right. exists rates, missing. split.
  - destruct missing; run_script; cbn [warning]; by rewrite <- ?app_assoc, ?app_nil_r.
  - intros t rate Ht. by apply (project_rates_sound all_rates to_currencies rates).
Qed.

(** A reply with a success status and a rates field, whatever the field
    holds. *)
Lemma fetch_live_rates_probe w from_currency to_currencies s fields all_rates :
  upstream w (calls s) (Latest from_currency) = Body (JObj fields) →
  fields !! "result" = Some (JStr "success") →
  fields !! "rates" = Some all_rates →
  ((∃ t e, t ∈ to_currencies ∧ probe all_rates t = Raise e) →
   ∃ err,
     fetch_live_rates w from_currency to_currencies s =
     (Stopped,
      State (S (calls s)) (trace s ++ [Get (Latest from_currency); StError err]))) ∧
  ((∀ t, t ∈ to_currencies → ∃ b, probe all_rates t = Val b) →
   ∃ rates,
     fetch_live_rates w from_currency to_currencies s =
     (let missing := filter (λ t, lacks all_rates t = true) to_currencies in
      (Done (rates, missing),
       State (S (calls s)) (trace s ++ Get (Latest from_currency) :: warning missing)))).
Proof.
  intros Hreply Hstatus Hrates.
  split; intros Hprobe;
    unfold fetch_live_rates, try_except, get_json; rewrite bind_unfold, Hreply;
    cbn [json_of]; run_script; unfold getitem at 1; rewrite Hstatus; run_script;
    cbn [eq_str String.eqb Ascii.eqb Bool.eqb negb]; run_script;
    unfold getitem at 1; rewrite Hrates; run_script.
  - destruct Hprobe as (t & e & Ht & Hraise).
    assert (∃ e', project_rates all_rates to_currencies = Raise e') as [e' ->]
      by exact (project_rates_probe_raise all_rates to_currencies ∅ t e Ht Hraise).
    run_script. eexists. by rewrite <- app_assoc.
  - assert (∃ rates, project_rates all_rates to_currencies = Val rates) as [rates ->]
      by exact (project_rates_probe all_rates to_currencies ∅ Hprobe).
    assert (project_missing all_rates to_currencies
            = Val (filter (λ t, lacks all_rates t = true) to_currencies)) as ->
      by exact (project_missing_probe all_rates to_currencies [] Hprobe).
    exists rates. run_script. cbv zeta.
    destruct (filter (λ t, lacks all_rates t = true) to_currencies) as [|t0 miss];
      run_script; cbn [warning]; by rewrite <- ?app_assoc, ?app_nil_r.
Qed.

(** ** The cards block, card by card *)

Lemma enumerate_lookup {A} (l : list A) (a i : nat) (x : A) :
  (i, x) ∈ zip (seq a (length l)) l → a ≤ i ∧ l !! (i - a) = Some x.
Proof.
  revert a. induction l as [|y l IH]; intros a; cbn.
  { by intros ?%elem_of_nil. }
  intros [[= -> ->]|Hin]%elem_of_cons.
  - split; [lia|]. by rewrite Nat.sub_diag.
  - apply IH in Hin as [Hle Hx]. split; [lia|].
    replace (i - a) with (S (i - S a)) by lia. done.
Qed.

Lemma cards_loop_log to_currencies amount (rates : gmap string json)
    (l : list (nat * string)) s :
  (∀ i t, (i, t) ∈ l → to_currencies !! i = Some t) →
  ∃ r cards,
    for_in l
      (λ '(i, to_cur) _,
         match rates !! to_cur with
         | Some rate =>
             converted ← eval (py_mul amount rate);
             emit (StMetric i to_cur converted rate)
         | None => mret ()
         end) () s =
    (r, State (calls s) (trace s ++ cards)) ∧
    (r = Done () ∨ r = Raised TypeError ∨ r = Raised OverflowError) ∧
    Forall (card_in to_currencies amount rates) cards ∧
    (r = Done () →
     ∀ i t rate, (i, t) ∈ l → rates !! t = Some rate → ∃ c, py_mul amount rate = Val c).
Proof.
  revert s. induction l as [|[i to_cur] l IH]; intros s Hl.
  { exists (Done ()), []. destruct s. cbn. rewrite app_nil_r.
    split; [done|]. split; [by left|]. split; [done|].
    by intros _ ??? ?%elem_of_nil. }
  assert (∀ i t, (i, t) ∈ l → to_currencies !! i = Some t) as Hl'.
  { intros i' t' Hin. apply Hl. by right. }
  cbn [for_in]. rewrite bind_unfold.
  destruct (rates !! to_cur) as [rate|] eqn:Hrate.
  - rewrite bind_unfold. destruct (py_mul amount rate) as [c|e] eqn:Hmul; run_script.
    + destruct (IH (State (calls s) (trace s ++ [StMetric i to_cur c rate])) Hl')
        as (r & cards & -> & Hr & Hcards & Hdone).
      exists r, (StMetric i to_cur c rate :: cards). cbn [calls trace].
      rewrite <- app_assoc. split; [done|]. split; [done|]. split.
      * constructor; [|done]. split; [apply Hl; left|done].
      * intros Hres i' t' rate' [[= -> ->]|Hin]%elem_of_cons Ht'.
        -- exists c. congruence.
        -- by eapply Hdone.
    + exists (Raised e), []. rewrite app_nil_r. destruct s. split; [done|].
      split; [|split; [done|done]].
      destruct (py_mul_raise _ _ _ Hmul) as [->| ->]; [right; by left|right; by right].
  - run_script. destruct (IH s Hl') as (r & cards & -> & Hr & Hcards & Hdone).
    exists r, cards. split; [done|]. split; [done|]. split; [done|].
    intros Hres i' t' rate' [[= -> ->]|Hin]%elem_of_cons Ht'; [congruence|].
    by eapply Hdone.
Qed.

Lemma conversion_cards_log from_currency to_currencies amount rates s :
  ∃ r cards,
    conversion_cards from_currency to_currencies amount rates s =
    (r, State (calls s) (trace s ++ StSubheader ConversionResults :: cards)) ∧
    (r = Done () ∨ r = Raised TypeError ∨ r = Raised OverflowError) ∧
    Forall (card_in to_currencies amount rates) cards ∧
    (r = Done () →
     ∀ t rate, t ∈ to_currencies → rates !! t = Some rate →
       ∃ c, py_mul amount rate = Val c).
Proof.
  unfold conversion_cards. rewrite bind_unfold. run_script.
  destruct to_currencies as [|t0 rest] eqn:Hto.
  { run_script. exists (Done ()), [StWarning SelectTarget]. cbn [calls trace].
    rewrite <- app_assoc. split; [done|]. split; [by left|].
    split; [by repeat constructor|]. by intros _ ?? ?%elem_of_nil. }
  rewrite <- Hto.
  destruct (cards_loop_log to_currencies amount rates (enumerate to_currencies)
              (State (calls s) (trace s ++ [StSubheader ConversionResults])))
    as (r & cards & Heq & Hr & Hcards & Hdone).
  { intros i t Hin. apply enumerate_lookup in Hin as [_ Hin].
    by rewrite Nat.sub_0_r in Hin. }
  exists r, cards. cbn [calls trace] in Heq. rewrite <- app_assoc in Heq.
  split; [exact Heq|]. split; [done|]. split; [done|].
  intros Hres t rate [k Hk]%list_elem_of_lookup Ht.
  apply (Hdone Hres k t rate); [|done].
  unfold enumerate. apply list_elem_of_lookup. exists k.
  apply lookup_zip_with_Some. exists k, t. split; [done|]. split; [|done].
  apply lookup_seq. split; [done|]. by apply lookup_lt_Some in Hk.
Qed.


(** ** The ways a run can go *)

Lemma main_unfold w i s :
  main w i s =
  ('(rates, missing) ← fetch_live_rates w (base_currency i) (targets i);
   conversion_cards (base_currency i) (targets i) (amount i) rates;;
   start_date ← trend_block w (base_currency i) (targets i) rates;
   table_block w (base_currency i) (targets i) start_date) s.
Proof. unfold main, base_currency, targets. by destruct (sidebar i). Qed.

Lemma run_paths w i : run_path w i (run w i).
Proof.
  unfold run. rewrite main_unfold, bind_unfold.
  destruct (fetch_live_rates_cases w (base_currency i) (targets i) init)
    as [[err ->]|(rates & missing & -> & Hrates)].
  { apply path_stopped. }
  cbn [calls trace init app]. rewrite bind_unfold.
  destruct (conversion_cards_log (base_currency i) (targets i) (amount i) rates
              (State 1 (Get (Latest (base_currency i)) :: warning missing)))
    as (r & cards & -> & Hr & Hcards & _).
  cbn [calls trace app].
  assert (rendered w i
            (Get (Latest (base_currency i))
               :: warning missing ++ StSubheader ConversionResults :: cards)) as Hpre.
  { exists missing, cards. split; [done|].
    eapply Forall_impl; [exact Hcards|].
    intros [| |[]| |col t c rate| |]; cbn; try done.
    intros (Hcol & Hrate & Hmul). split; [done|]. split; [|done].
    by apply Hrates. }
  destruct Hr as [->|[->| ->]].
  2:{ apply path_card_raises; [done|by left]. }
  2:{ apply path_card_raises; [done|by right]. }
  destruct (head (targets i)) as [first|] eqn:Hhead.
  2:{ rewrite bind_unfold, trend_block_skipped by (intros first; by rewrite Hhead).
      rewrite table_block_single.
      - by apply path_no_history; [|destruct (targets i); [cbn; lia|]].
      - by destruct (targets i); [cbn; lia|]. }
  destruct (rates !! first) as [rate|] eqn:Hfirst.
  - rewrite (history_blocks w i rates first rate) by done.
    destruct (Hrates first rate Hfirst) as [_ Hreply].
    destruct (decide (1 < length (targets i))) as [Hlen|Hlen].
    + destruct (chart_call w (trend_series w i first)) as [[]|e] eqn:Hchart.
      * by eapply (path_table w i _ first rate).
      * by eapply (path_chart_raises w i _ first rate).
    + eapply (path_trend w i _ first rate); [done| |done].
      destruct (targets i) as [|t [|t' rest]]; [done| |cbn in Hlen; lia].
      by injection Hhead as ->.
  - rewrite bind_unfold, trend_block_skipped.
    2:{ intros first'. rewrite Hhead. by intros [= <-]. }
    destruct (decide (1 < length (targets i))) as [Hlen|Hlen].
    + rewrite table_block_unbound by done. cbn [calls trace].
      by apply path_unbound.
    + rewrite table_block_single by lia. apply path_no_history; [done|lia].
Qed.


(** ** Reading a run off its path *)

Lemma fetches_cards w i cards : Forall (card_of w i) cards → fetches cards = [].
Proof.
  induction 1 as [|e cards He _ IH]; [done|].
  destruct e as [| |[]| | | |]; try done.
Qed.

Lemma fetches_rendered w i pre :
  rendered w i pre → fetches pre = [Latest (base_currency i)].
Proof.
  intros (missing & cards & -> & Hcards).
  change (Get ?ep :: ?l) with ([Get ep] ++ l).
  rewrite !fetches_app, fetches_warning, fetches_subheader.
  by rewrite (fetches_cards w i cards Hcards).
Qed.

(** What holds of every event of every path holds of every event of a
    run. *)
Lemma run_forall (Q : event → Prop) w i :
  Q (Get (Latest (base_currency i))) →
  (∀ m, Q (StError m)) →
  (∀ m, Q (StWarning m)) →
  (∀ h, Q (StSubheader h)) →
  (∀ e, card_of w i e → Q e) →
  (∀ d, d ∈ window (first_day w) → Q (Get (Historical d (base_currency i)))) →
  (∀ first, head (targets i) = Some first →
     Forall Q (chart (observations w (base_currency i) first 1 (window (first_day w))))) →
  Q (StDataframe (table_of w (base_currency i) (first_day w) 32 (targets i) ∅)) →
  Forall Q (trace (run w i).2).
Proof.
  intros Hlatest Herror Hwarning Hheading Hcard Hday Hchart Htable.
  assert (∀ pre, rendered w i pre → Forall Q pre) as Hpre.
  { intros pre (missing & cards & -> & Hcards).
    constructor; [done|]. apply Forall_app. split.
    - unfold warning. destruct missing; by repeat constructor.
    - constructor; [done|]. eapply Forall_impl; [exact Hcards|done]. }
  assert (Forall Q (gets (base_currency i) (window (first_day w)))) as Hgets.
  { apply Forall_fmap, Forall_forall. intros d Hd. by apply Hday. }
  assert (∀ first, head (targets i) = Some first → Forall Q (trend_events w i first))
    as Htrend.
  { intros first Hfirst. constructor; [done|]. apply Forall_app. split; [done|].
    by apply Hchart. }
  destruct (run_paths w i) as [err|pre e Hp _|pre Hp _|pre Hp _
                              |pre first rate Hp Hfirst _
                              |pre first rate e Hp _ Hfirst _ _
                              |pre first rate Hp _ Hfirst _ _];
    cbn [snd trace].
  - by repeat constructor.
  - by apply Hpre.
  - by apply Hpre.
  - apply Forall_app. split; [by apply Hpre|by repeat constructor].
  - apply Forall_app. split; [by apply Hpre|]. apply Htrend. by rewrite Hfirst.
  - apply Forall_app. split; [by apply Hpre|]. by apply Htrend.
  - apply Forall_app. split; [by apply Hpre|]. apply Forall_app.
    split; [by apply Htrend|]. constructor; [done|]. apply Forall_app. split.
    + generalize (targets i). intros l. induction l as [|c l IH]; [done|].
      cbn [mbind list_bind]. by apply Forall_app.
    + by repeat constructor.
Qed.

(** ** More on the observations and the table *)

Lemma observed_inv cur r rate :
  observed cur r = Some rate →
  fetch_failed r = false ∧ reply_rate r cur = Val rate.
Proof.
  unfold observed, day_rate, reply_rate, fetch_failed.
  destruct r as [|j]; cbn [json_of mbind py_bind]; [done|].
  destruct j; try done. cbn [getitem].
  destruct (m !! "result") as [status|]; cbn [mbind py_bind]; [|done].
  destruct (eq_str "success" status); cbn [negb]; [|done].
  destruct (m !! "rates") as [hist_rates|]; cbn [mbind py_bind]; [|done].
  destruct (contains hist_rates cur) as [[]|e]; cbn [mbind py_bind]; try done.
  destruct (getitem hist_rates cur) as [v|e]; cbn [mbind py_bind]; [|done].
  by intros [= ->].
Qed.

Lemma observations_faithful w from_currency cur n start_date :
  faithful w from_currency cur n start_date
    (observations w from_currency cur n (window start_date)).
Proof.
  intros d rate Hin.
  apply elem_of_observations in Hin as (k & Hk & Hobs); [|apply window_NoDup].
  apply window_lookup_Some in Hk as [Hk ->].
  exists k. split; [done|]. split; [done|]. cbv zeta. by apply observed_inv.
Qed.

Lemma observations_none w from_currency cur n ds :
  (∀ (k : nat) d, ds !! k = Some d →
     observed cur (upstream w (n + k) (Historical d from_currency)) = None) →
  observations w from_currency cur n ds = [].
Proof.
  revert n. induction ds as [|d ds IH]; intros n Hnone; [done|].
  cbn [observations]. pose proof (Hnone 0 d eq_refl) as Hd.
  rewrite Nat.add_0_r in Hd. rewrite Hd. apply IH.
  intros k d' Hk. replace (S n + k) with (n + S k) by lia. by apply (Hnone (S k)).
Qed.

Lemma observations_lengths w from_currency cur n ds :
  length (observations w from_currency cur n ds).*1
  = length (observations w from_currency cur n ds).*2.
Proof. by rewrite !length_fmap. Qed.

Lemma observations_in_window w from_currency cur n start_date :
  Forall (λ d, (start_date ≤ d ≤ start_date + 30)%Z)
    (observations w from_currency cur n (window start_date)).*1.
Proof.
  apply Forall_forall. intros d Hd. apply elem_of_window.
  eapply elem_of_sublist; [exact Hd|apply observations_dates_sublist].
Qed.

(** A column of the table is the series of one of the occurrences of its
    currency among the targets. *)
Lemma table_of_lookup_inv w from_currency start_date n to_currencies
    (table_data : gmap string (list Z * list json)) cur series :
  table_of w from_currency start_date n to_currencies table_data !! cur = Some series →
  table_data !! cur = Some series ∨
  ∃ j : nat,
    to_currencies !! j = Some cur ∧
    series = ((observations w from_currency cur (n + 31 * j) (window start_date)).*1,
              (observations w from_currency cur (n + 31 * j) (window start_date)).*2).
Proof.
  revert n table_data.
  induction to_currencies as [|c rest IH]; intros n table_data Hcur; [by left|].
  cbn [table_of] in Hcur. apply IH in Hcur as [Hcur|(j & Hj & ->)].
  - rewrite lookup_insert in Hcur. case_decide as Hc; [|by left].
    subst c. injection Hcur as <-. right. exists 0.
    by rewrite Nat.mul_0_r, Nat.add_0_r.
  - right. exists (S j). split; [done|].
    by replace (n + 31 + 31 * j) with (n + 31 * S j) by lia.
Qed.

Lemma table_of_dom w from_currency start_date n to_currencies
    (table_data : gmap string (list Z * list json)) :
  dom (table_of w from_currency start_date n to_currencies table_data)
  = list_to_set to_currencies ∪ dom table_data.
Proof.
  revert n table_data.
  induction to_currencies as [|c rest IH]; intros n table_data.
  { cbn [table_of list_to_set]. by rewrite union_empty_l_L. }
  cbn [table_of list_to_set]. rewrite IH, dom_insert_L.
  by rewrite (assoc_L (∪)), (comm_L (∪) (list_to_set rest)).
Qed.

Lemma reply_rate_success m r t :
  success_with m r →
  reply_rate r t = match m !! t with
                   | Some rate => Val rate
                   | None => Raise KeyError
                   end.
Proof.
  intros (fields & -> & _ & Hrates). unfold reply_rate, getitem.
  cbn [json_of mbind py_bind]. rewrite Hrates. reflexivity.
Qed.

Lemma rendered_no_series w i pre :
  rendered w i pre →
  Forall (λ e, match e with
               | StAltairChart _ _ | StDataframe _ => False
               | _ => True
               end) pre.
Proof.
  intros (missing & cards & -> & Hcards).
  constructor; [done|]. apply Forall_app. split.
  - unfold warning. destruct missing; by repeat constructor.
  - constructor; [done|]. eapply Forall_impl; [exact Hcards|]. by intros [| |[]| | | |].
Qed.

Lemma conversion_cards_done_iff from_currency to_currencies amount rates s :
  (conversion_cards from_currency to_currencies amount rates s).1 = Done () ↔
  ∀ t rate, t ∈ to_currencies → rates !! t = Some rate →
    ∃ c, py_mul amount rate = Val c.
Proof.
  split.
  - destruct (conversion_cards_log from_currency to_currencies amount rates s)
      as (r & cards & -> & _ & _ & Hdone). exact Hdone.
  - destruct (conversion_cards_shape from_currency to_currencies amount rates s)
      as (r & cards & -> & _ & _ & Hdone). exact Hdone.
Qed.

(** ** After the latest-rates fetch *)

(** Once the latest-rates block has ended normally, the run draws the
    heading of the results, shows no error and does not stop. *)
Lemma run_goes_on w i rates missing :
  fetch_live_rates w (base_currency i) (targets i) init =
  (Done (rates, missing),
   State 1 (Get (Latest (base_currency i)) :: warning missing)) →
  ∃ evs,
    trace (run w i).2 =
    Get (Latest (base_currency i))
      :: warning missing ++ StSubheader ConversionResults :: evs ∧
    Forall (λ e, is_error e = false) (trace (run w i).2) ∧
    (run w i).1 ≠ Stopped.
Proof.
  intros Hfetch. unfold run. rewrite main_unfold, bind_unfold, Hfetch, bind_unfold.
  set (s1 := State 1 (Get (Latest (base_currency i)) :: warning missing)).
  destruct (conversion_cards_shape (base_currency i) (targets i) (amount i) rates s1)
    as (r & cards & -> & Hr & Hcards & _).
  assert (Forall (λ e, is_error e = false)
            (trace s1 ++ StSubheader ConversionResults :: cards)) as Hquiet.
  { apply Forall_app. split.
    - constructor; [done|]. unfold warning. by destruct missing; repeat constructor.
    - constructor; [done|]. eapply Forall_impl; [exact Hcards|]. by intros [| |[]| | | |]. }
  destruct r as [[]| |e]; [|done|].
  - edestruct (proceeds_bind (rendering (base_currency i))
                 (trend_block w (base_currency i) (targets i) rates)
                 (table_block w (base_currency i) (targets i)))
      as (evs & Htrace & Hevs & Hres);
      [apply trend_block_proceeds|intros; apply table_block_proceeds|].
    exists (cards ++ evs). rewrite Htrace. cbn [trace].
    split; [subst s1; cbn [trace app]; by rewrite <- !app_assoc|]. split; [|done].
    apply Forall_app. split; [exact Hquiet|].
    eapply Forall_impl; [exact Hevs|]. by intros e [_ ?].
  - exists cards. cbn [fst snd trace]. split; [|done].
    subst s1. cbn [trace app]. by rewrite <- ?app_assoc.
Qed.

Lemma run_stops_with w i err :
  fetch_live_rates w (base_currency i) (targets i) init =
  (Stopped, State 1 [Get (Latest (base_currency i)); StError err]) →
  run w i = (Stopped, State 1 [Get (Latest (base_currency i)); StError err]).
Proof. intros Hfetch. unfold run. by rewrite main_unfold, bind_unfold, Hfetch. Qed.

(** Libraries that draw whatever they are given do. *)
Lemma st_dataframe_returns today upstream chart
    (table_data : gmap string (list Z * list json)) :
  st_dataframe (World today upstream chart returns) table_data = Val ().
Proof. unfold st_dataframe. by destruct (cells table_data). Qed.

(* ===================================================================== *)
(** * The claims *)
(* ===================================================================== *)

Lemma success_success m : success_with m (success m).
Proof. exists {[ "result" := JStr "success"; "rates" := JObj m ]}. done. Qed.

Lemma sample_latest base n : success_with sample_rates (upstream steady n (Latest base)).
Proof. apply success_success. Qed.

(** C1.  On a successful latest-rates reply with rates mapping [m], the
    projection of lines 54-58 partitions the requested targets: a
    requested target is available, at the upstream rate, exactly when [m]
    has it, and is missing otherwise; nothing that was not requested is
    available; and [missing] is the requested list with the available
    targets struck out, so it keeps the caller's order and repeats a
    target only as often as the caller did. *)
Theorem snapshot_partition w from_currency to_currencies s m :
  success_with m (upstream w (calls s) (Latest from_currency)) →
  ∃ (rates : gmap string json) (missing : list string) s',
    fetch_live_rates w from_currency to_currencies s = (Done (rates, missing), s') ∧
    (∀ t, t ∈ to_currencies → rates !! t = m !! t ∧ (t ∈ missing ↔ m !! t = None)) ∧
    (∀ t, is_Some (rates !! t) → t ∈ to_currencies ∧ t ∉ missing) ∧
    (∀ t, t ∈ missing → t ∈ to_currencies ∧ rates !! t = None) ∧
    missing = filter (λ t, m !! t = None) to_currencies ∧
    missing `sublist_of` to_currencies ∧
    (NoDup to_currencies → NoDup missing).
Proof.
  intros Hok.
  destruct (project_rates_obj m to_currencies) as (rates & Hproj & Hrates).
  exists rates, (filter (λ t, m !! t = None) to_currencies). eexists.
  split; [by apply fetch_live_rates_success|].
  assert (∀ t, t ∈ filter (λ t, m !! t = None) to_currencies
               ↔ m !! t = None ∧ t ∈ to_currencies) as Hmissing.
  { intros t. apply (list_elem_of_filter (λ t, m !! t = None)). }
  split; [|split; [|split; [|split; [done|split]]]].
  - intros t Ht. split; [by rewrite Hrates, decide_True|].
    rewrite Hmissing. tauto.
  - intros t [v Hv]. rewrite Hrates in Hv. case_decide; [|done].
    split; [done|]. rewrite Hmissing. intros [Hnone _]. congruence.
  - intros t [Hnone Hin]%Hmissing. split; [done|]. by rewrite Hrates, decide_True.
  - apply sublist_filter.
  - apply NoDup_filter.
Qed.

(** The steady source, base USD, targets EUR and NGN. *)
Lemma snapshot_partition_witness :
  ∃ rates missing s',
    fetch_live_rates steady "USD" ["EUR"; "NGN"] init = (Done (rates, missing), s') ∧
    rates !! "EUR" = Some (JFloat 0.9) ∧ rates !! "NGN" = None ∧ missing = ["NGN"].
Proof.
  destruct (snapshot_partition steady "USD" ["EUR"; "NGN"] init sample_rates
              (sample_latest "USD" 0))
    as (rates & missing & s' & Hrun & Hpart & _ & _ & Hmissing & _).
  exists rates, missing, s'. split; [exact Hrun|].
  split; [|split].
  - apply (Hpart "EUR"). by left.
  - apply (Hpart "NGN"). right. by left.
  - exact Hmissing.
Defined.

(** C2 (as the code has it).  No reply for a day is reused, neither
    across the currencies of the table nor from the trend.  In a run
    with more than one target, once the latest-rates reply is a success
    that carries the first target, the cards have their numbers and the
    chart call has returned, the requests are the latest one, the 31
    days of the window for the trend, and the same 31 days once more for
    every target of the table: each day is requested once per target
    and once for the trend, 32 + 31 n requests for n targets. *)
Theorem table_fetches_per_pair w i m first :
  success_with m (latest_reply w i) →
  head (targets i) = Some first →
  is_Some (m !! first) →
  (∀ t rate, t ∈ targets i → m !! t = Some rate →
     ∃ converted, py_mul (amount i) rate = Val converted) →
  chart_call w (trend_series w i first) = Val () →
  1 < length (targets i) →
  let days := (λ d, Historical d (base_currency i)) <$> window (first_day w) in
  fetches (trace (run w i).2)
  = Latest (base_currency i) :: days ++ (targets i ≫= λ _, days) ∧
  calls (run w i).2 = 32 + 31 * length (targets i) ∧
  ∀ d, d ∈ window (first_day w) →
    times_fetched (Historical d (base_currency i)) (trace (run w i).2)
    = 1 + length (targets i).
Proof.
  intros Hok Hhead Hfirst Hnumbers Hchart Hlen days.
  destruct (run_with_history w i m first Hok Hhead Hfirst Hnumbers)
    as (cards & Hcards & ->).
  cbv zeta. rewrite decide_True, Hchart by done. cbn [fst snd calls trace].
  assert (fetches
            ((Get (Latest (base_currency i))
                :: warning (filter (λ t, m !! t = None) (targets i))
                ++ StSubheader ConversionResults :: cards)
               ++ trend_events w i first ++ table_events w i)
          = Latest (base_currency i) :: days ++ (targets i ≫= λ _, days)) as Hfetches.
  { by rewrite !fetches_app, fetches_pre, fetches_trend_events, fetches_table_events. }
  split; [exact Hfetches|]. split; [done|].
  intros d Hd. unfold times_fetched. rewrite Hfetches.
  rewrite filter_cons, decide_False by done.
  rewrite filter_app, length_app. subst days.
  rewrite times_fetched_window by done. f_equal.
  pose proof (times_fetched_table (base_currency i) (first_day w) (targets i) d Hd)
    as Htable.
  unfold times_fetched in Htable. by rewrite fetches_table in Htable.
Qed.

(** Two targets against the steady source: 94 requests, today's rates
    three times. *)
Lemma table_fetches_per_pair_witness :
  calls (run steady (Inputs USD [EUR; JPY] 1 false)).2 = 94 ∧
  times_fetched (Historical 739000 "USD")
    (trace (run steady (Inputs USD [EUR; JPY] 1 false)).2) = 3.
Proof.
  destruct (table_fetches_per_pair steady (Inputs USD [EUR; JPY] 1 false)
              sample_rates "EUR") as (_ & Hcalls & Hcount).
  - apply success_success.
  - reflexivity.
  - by eexists.
  - intros t rate [->|[->|[]%elem_of_nil]%elem_of_cons]%elem_of_cons [= <-];
      by eexists.
  - unfold chart_call. by destruct (trend_series _ _ _).
  - cbn. lia.
  - split; [exact Hcalls|]. apply (Hcount 739000%Z). apply elem_of_window.
    unfold first_day. cbn. lia.
Defined.

(** C2 fails as stated: with two targets the day [today] is requested
    three times in one run (once for the trend, once per target for the
    table), not once. *)
Lemma one_fetch_per_date_fails :
  ¬ (∀ d, d ∈ window (today steady - 30) →
       times_fetched (Historical d "USD")
         (trace (run steady (Inputs USD [EUR; JPY] 1 false)).2) = 1).
Proof.
  intros Hone. specialize (Hone (today steady)).
  assert (times_fetched (Historical (today steady) "USD")
            (trace (run steady (Inputs USD [EUR; JPY] 1 false)).2) = 3) as Hthree.
  { vm_compute. reflexivity. }
  rewrite Hthree in Hone. discriminate Hone.
  apply elem_of_window. cbn. lia.
Qed.

(** C3 (as the code has it).  The history loops keep no failure counter:
    a day whose fetch fails or whose reply is not a success only leaves a
    gap.  When every day of the window either fails or succeeds with the
    target, the series the trend block hands to the chart has one
    observation per day that did not fail, so 31 less the number of
    failed days: 26 when exactly 5 fail.  The block ends as the chart
    call does. *)
Theorem failures_are_gaps w from_currency first rest rates rate s :
  rates !! first = Some rate →
  (∀ k : nat, k < 31 →
     let r := upstream w (calls s + k)
                (Historical (today w - 30 + Z.of_nat k) from_currency) in
     fetch_failed r = true ∨ ∃ m, success_with m r ∧ is_Some (m !! first)) →
  ∃ obs,
    trend_block w from_currency (first :: rest) rates s =
    (outcome (chart_call w obs) (Some (today w - 30)%Z),
     State (calls s + 31)
       (trace s ++ StSubheader (Last30Days from_currency first)
          :: gets from_currency (window (today w - 30)) ++ chart obs)) ∧
    length obs + failed_fetches w from_currency (calls s) (today w - 30) = 31.
Proof.
  intros Hrate Hdays. eexists. split; [by eapply trend_block_spec|].
  rewrite <- window_unfold. unfold failed_fetches, range.
  rewrite <- (Nat.add_0_r (calls s)) at 1.
  apply (observations_count w from_currency first (today w - 30) (calls s) 0 31).
  intros k Hk. cbv zeta.
  destruct (Hdays k ltac:(lia)) as [Hfail|(m & Hok & Hsome)]; [by left|].
  right. by rewrite (observed_success first m).
Qed.

(** Five failed days leave 26 observations. *)
Lemma failures_are_gaps_witness :
  ∃ obs,
    (trend_block five_failures "USD" ["EUR"] sample_rates init).2 =
    State 31
      (StSubheader (Last30Days "USD" "EUR")
         :: gets "USD" (window 738970) ++ chart obs) ∧
    length obs + 5 = 31.
Proof.
  destruct (failures_are_gaps five_failures "USD" "EUR" [] sample_rates (JFloat 0.9) init)
    as (obs & Hrun & Hcount).
  - reflexivity.
  - intros k Hk. cbv zeta. cbn [five_failures upstream today].
    destruct (739000 - 30 + Z.of_nat k <? 738975)%Z; [by left|].
    right. exists sample_rates. split; [apply success_success|by eexists].
  - exists obs. split; [by rewrite Hrun|]. exact Hcount.
Defined.

(** C3 fails as stated: nothing the trend block returns or logs counts
    the failed fetches.  Five failed days and five days that succeed
    without the target give the same result and the same log, so no
    function of what the caller sees is the number of failures. *)
Lemma no_failure_counter :
  ¬ ∃ counter : result (option Z) * state → nat,
      ∀ w, counter (trend_block w "USD" ["EUR"] sample_rates init)
           = failed_fetches w "USD" 0 (today w - 30).
Proof.
  intros [counter Hcounter].
  pose proof (Hcounter five_failures) as Hfail.
  pose proof (Hcounter five_gaps) as Hgaps.
  assert (trend_block five_failures "USD" ["EUR"] sample_rates init
          = trend_block five_gaps "USD" ["EUR"] sample_rates init) as Hsame.
  { vm_compute. reflexivity. }
  assert (failed_fetches five_failures "USD" 0 (today five_failures - 30) = 5) as H5.
  { vm_compute. reflexivity. }
  assert (failed_fetches five_gaps "USD" 0 (today five_gaps - 30) = 0) as H0.
  { vm_compute. reflexivity. }
  rewrite Hsame, Hgaps, H0 in Hfail. rewrite H5 in Hfail. discriminate Hfail.
Qed.

(** C4.  [start_date] is bound only inside the trend block.  When more
    than one target is selected and the first one is absent from a
    successful latest-rates reply, the trend block is skipped, and the
    table block, having drawn its heading, raises [NameError] at its
    first read of [start_date]: the run ends there, with no request for
    a historical day and no table. *)
Theorem table_reads_unbound_start_date w i from_currency first second rest m :
  sidebar i = (from_currency, first :: second :: rest) →
  success_with m (upstream w 0 (Latest from_currency)) →
  m !! first = None →
  (∀ t rate, t ∈ first :: second :: rest → m !! t = Some rate →
     ∃ converted, py_mul (amount i) rate = Val converted) →
  ∃ cards,
    run w i =
    (Raised NameError,
     State 1
       (Get (Latest from_currency)
          :: warning (filter (λ t, m !! t = None) (first :: second :: rest))
          ++ StSubheader ConversionResults :: cards ++ [StSubheader Last30DaysAll])) ∧
    Forall (λ e, is_card e = true) cards.
Proof.
  intros Hsidebar Hok Hfirst Hnumbers.
  destruct (project_rates_obj m (first :: second :: rest)) as (rates & Hproj & Hrates).
  unfold run. rewrite (main_success w i init from_currency _ m rates) by done.
  rewrite bind_unfold.
  destruct (conversion_cards_shape from_currency (first :: second :: rest) (amount i) rates
              (State (S (calls init))
                 (trace init ++ Get (Latest from_currency)
                    :: warning (filter (λ t, m !! t = None) (first :: second :: rest)))))
    as (r & cards & -> & _ & Hcards & Hdone).
  rewrite Hdone.
  2:{ intros t rate Hin Ht. rewrite Hrates in Ht. case_decide; [by eapply Hnumbers|done]. }
  rewrite bind_unfold, trend_block_skipped.
  2:{ intros ? [= <-]. rewrite Hrates, decide_True; [done|left]. }
  rewrite table_block_unbound by (cbn; lia).
  exists cards. split; [|done]. cbn [calls trace init app].
  by rewrite <- !app_assoc.
Qed.

(** Targets NGN and EUR against a source that has no NGN. *)
Lemma table_reads_unbound_start_date_witness :
  ∃ cards,
    run steady (Inputs USD [NGN; EUR] 10 false) =
    (Raised NameError,
     State 1
       (Get (Latest "USD") :: StWarning (CurrenciesNotFound ["NGN"])
          :: StSubheader ConversionResults :: cards ++ [StSubheader Last30DaysAll])).
Proof.
  destruct (table_reads_unbound_start_date steady (Inputs USD [NGN; EUR] 10 false)
              "USD" "NGN" "EUR" [] sample_rates) as (cards & Hrun & _).
  - reflexivity.
  - apply sample_latest.
  - reflexivity.
  - intros t rate [->|[->|[]%elem_of_nil]%elem_of_cons]%elem_of_cons Ht; [done|].
    injection Ht as <-. by eexists.
  - exists cards. exact Hrun.
Defined.

(** C5.  In both history loops a day whose fetch fails is absorbed where
    it happens.  The trend block, when its guard holds, and the table
    block, when [start_date] is bound, request every one of the 31 days
    (for every currency, in the table) whatever the replies; the series
    they hand to the chart and to the table has every day whose reply is
    a success carrying the target, with the rate of that reply, and no
    day whose fetch failed.  In the table a currency's series is the one
    of its last occurrence in [to_currencies].  Neither block can end
    before its last request, and each ends as its drawing call does.  So
    a run whose latest-rates reply is a success carrying the first
    target, with numbers for rates, ends normally whenever the chart
    call and the table call return, however many days failed. *)
Theorem one_bad_day_is_absorbed w from_currency :
  (∀ first rest rates rate s,
     rates !! first = Some rate →
     ∃ obs,
       trend_block w from_currency (first :: rest) rates s =
       (outcome (chart_call w obs) (Some (today w - 30)%Z),
        State (calls s + 31)
          (trace s ++ StSubheader (Last30Days from_currency first)
             :: gets from_currency (window (today w - 30)) ++ chart obs)) ∧
       absorbs w from_currency first (calls s) (today w - 30) obs) ∧
  (∀ to_currencies start_date s,
     1 < length to_currencies →
     ∃ table_data,
       table_block w from_currency to_currencies (Some start_date) s =
       (outcome (st_dataframe w table_data) (),
        State (calls s + 31 * length to_currencies)
          (trace s ++ StSubheader Last30DaysAll
             :: (to_currencies ≫= λ _, gets from_currency (window start_date))
             ++ [StDataframe table_data])) ∧
       ∀ (j : nat) cur,
         to_currencies !! j = Some cur → cur ∉ drop (S j) to_currencies →
         ∃ obs,
           table_data !! cur = Some (obs.*1, obs.*2) ∧
           absorbs w from_currency cur (calls s + 31 * j) start_date obs) ∧
  (∀ i first rest m,
     sidebar i = (from_currency, first :: rest) →
     success_with m (upstream w 0 (Latest from_currency)) →
     is_Some (m !! first) →
     (∀ t rate, t ∈ first :: rest → m !! t = Some rate →
        ∃ converted, py_mul (amount i) rate = Val converted) →
     chart_call w (trend_series w i first) = Val () →
     (rest ≠ [] → st_dataframe w (table_series w i) = Val ()) →
     (run w i).1 = Done ()).
Proof.
  split; [|split].
  - intros first rest rates rate s Hrate. eexists.
    split; [by eapply trend_block_spec|]. apply observations_absorbs.
  - intros to_currencies start_date s Hlen. eexists.
    split; [by apply table_block_spec|].
    intros j cur Hj Hlast. eexists. split; [by apply table_of_lookup|].
    apply observations_absorbs.
  - intros i first rest m Hsidebar Hok Hfirst Hnumbers Hchart Htable.
    assert (base_currency i = from_currency ∧ targets i = first :: rest) as [Hbase Htargets].
    { unfold base_currency, targets. by rewrite Hsidebar. }
    destruct (run_with_history w i m first) as (cards & _ & ->).
    + unfold latest_reply. by rewrite Hbase.
    + by rewrite Htargets.
    + done.
    + by rewrite Htargets.
    + cbv zeta. rewrite Hchart. case_decide as Hlen; [|reflexivity].
      rewrite Htable; [reflexivity|]. rewrite Htargets in Hlen.
      destruct rest; [cbn in Hlen; lia|done].
Qed.

(** C6 (as the code has it).  The latest-rates fetch gates the cycle, on
    what the script reads of the reply.  If the request raises, the
    payload is not an object or lacks the status or the rates field, or
    the status is not "success", the run is exactly one request followed
    by one error notice, and ends by [st.stop()]: no heading, card,
    chart or table is drawn and no further request goes out.  With a
    success status and a rates field, what decides is whether the
    membership test or the lookup of line 55 raises for one of the
    selected targets: if one does, the run stops in the same way; if
    none does, the run goes on to the conversion cards, shows no error
    and does not end by [st.stop()], with a warning for the targets the
    field does not contain.  A rates mapping never raises; nor does an
    empty list.  Every run is on one side or the other. *)
Theorem latest_fetch_gate w i :
  let stops :=
    ∃ err, run w i = (Stopped, State 1 [Get (Latest (base_currency i)); StError err]) in
  let goes_on missing :=
    ∃ evs,
      trace (run w i).2 =
      Get (Latest (base_currency i))
        :: warning missing ++ StSubheader ConversionResults :: evs ∧
      Forall (λ e, is_error e = false) (trace (run w i).2) ∧
      (run w i).1 ≠ Stopped in
  (fetch_failure (latest_reply w i) → stops) ∧
  (∀ m, success_with m (latest_reply w i) →
     goes_on (filter (λ t, m !! t = None) (targets i))) ∧
  (∀ fields all_rates,
     latest_reply w i = Body (JObj fields) →
     fields !! "result" = Some (JStr "success") →
     fields !! "rates" = Some all_rates →
     ((∃ t e, t ∈ targets i ∧ probe all_rates t = Raise e) → stops) ∧
     ((∀ t, t ∈ targets i → ∃ b, probe all_rates t = Val b) →
      goes_on (filter (λ t, lacks all_rates t = true) (targets i)))) ∧
  (stops ∨ ∃ missing, goes_on missing).
Proof.
  cbv zeta. split; [|split; [|split]].
  - intros Hfail. exact (main_failure w i init Hfail).
  - intros m Hok.
    destruct (project_rates_obj m (targets i)) as (rates & Hproj & _).
    apply (run_goes_on w i rates).
    by rewrite (fetch_live_rates_success _ _ _ _ m rates).
  - intros fields all_rates Hreply Hstatus Hrates.
    destruct (fetch_live_rates_probe w (base_currency i) (targets i) init
                fields all_rates Hreply Hstatus Hrates) as [Hraise Hval].
    split.
    + intros Hprobe. destruct (Hraise Hprobe) as [err Herr].
      exists err. by apply run_stops_with.
    + intros Hprobe. destruct (Hval Hprobe) as [rates Hfetch].
      by apply (run_goes_on w i rates).
  - destruct (fetch_live_rates_cases w (base_currency i) (targets i) init)
      as [[err Herr]|(rates & missing & Hfetch & _)].
    + left. exists err. by apply run_stops_with.
    + right. exists missing. by apply (run_goes_on w i rates).
Qed.

(** A reply that reports success but carries a list where the rates
    mapping should be: the membership tests on the list do not raise, so
    the run goes on with every target missing. *)
Example rates_as_list_goes_on :
  run rates_as_list (Inputs USD [EUR] 1 false) =
  (Done (),
   State 1 [Get (Latest "USD"); StWarning (CurrenciesNotFound ["EUR"]);
            StSubheader ConversionResults]).
Proof. reflexivity. Qed.

(** C6 fails as stated: a latest-rates reply can fail to be a success
    with a rates mapping (here the payload is malformed, with a list for
    its rates) while the run neither stops nor shows an error. *)
Lemma malformed_rates_go_on :
  ¬ (∀ w i,
       (∀ m, ¬ success_with m (latest_reply w i)) →
       (run w i).1 = Stopped ∨ Exists (λ e, is_error e = true) (trace (run w i).2)).
Proof.
  intros Hclaim.
  destruct (Hclaim rates_as_list (Inputs USD [EUR] 1 false)) as [Hstop|Herr].
  - intros m (fields & [= <-] & _ & Hrates). vm_compute in Hrates. discriminate Hrates.
  - rewrite rates_as_list_goes_on in Hstop. discriminate Hstop.
  - rewrite rates_as_list_goes_on in Herr. cbn [snd trace] in Herr.
    rewrite !Exists_cons, Exists_nil in Herr. cbn in Herr.
    destruct Herr as [|[|[|]]]; done.
Qed.

(** C7.  The trend loop walks the 31 consecutive days from
    [today - 30] to [today], both included, requesting each once and in
    that order.  If every one of these replies is a success that gives
    the target the same rate, the series handed to the chart has 31
    observations, one per day of that range, all with that rate; the
    block ends as the chart call does on that series. *)
Theorem window_is_last_31_days w from_currency first rest rates rate s fixed :
  rates !! first = Some rate →
  (∀ k : nat, k < 31 →
     ∃ m, success_with m (upstream w (calls s + k)
                            (Historical (today w - 30 + Z.of_nat k) from_currency)) ∧
          m !! first = Some fixed) →
  let days := window (today w - 30) in
  trend_block w from_currency (first :: rest) rates s =
  (outcome (altair_chart w days (replicate 31 fixed)) (Some (today w - 30)%Z),
   State (calls s + 31)
     (trace s ++ StSubheader (Last30Days from_currency first)
        :: gets from_currency days ++ [StAltairChart days (replicate 31 fixed)])) ∧
  length days = 31 ∧
  (∀ (k : nat) d, days !! k = Some d ↔ k < 31 ∧ d = (today w - 30 + Z.of_nat k)%Z) ∧
  head days = Some (today w - 30)%Z ∧
  last days = Some (today w) ∧
  increasing days.
Proof.
  intros Hrate Hdays days. split; [|split; [|split; [|split; [|split]]]].
  - rewrite (trend_block_spec _ _ _ _ _ rate) by done. cbv zeta. fold days.
    rewrite (observations_fixed _ _ _ _ _ fixed).
    + assert ((λ d, (d, fixed)) <$> days ≠ []) as Hne.
      { intros Hnil%(f_equal length). rewrite length_fmap in Hnil. subst days.
        by rewrite window_length in Hnil. }
      rewrite chart_nonempty by done. unfold chart_call.
      destruct ((λ d, (d, fixed)) <$> days) as [|o obs] eqn:Hobs; [done|].
      rewrite <- Hobs, fixed_series_dates, fixed_series_rates. subst days.
      by rewrite window_length.
    + intros k d [Hk ->]%window_lookup_Some.
      destruct (Hdays k Hk) as (m & Hok & Hm). by rewrite (observed_success first m).
  - apply window_length.
  - intros k d. apply window_lookup_Some.
  - apply window_head.
  - subst days. rewrite window_last. f_equal. lia.
  - apply window_sorted.
Qed.

(** The steady source gives EUR the rate 0.9 on all 31 days. *)
Lemma window_is_last_31_days_witness :
  trend_block steady "USD" ["EUR"] sample_rates init =
  (Done (Some 738970%Z),
   State 31
     (StSubheader (Last30Days "USD" "EUR")
        :: gets "USD" (window 738970)
        ++ [StAltairChart (window 738970) (replicate 31 (JFloat 0.9))])) ∧
  last (window 738970) = Some 739000%Z.
Proof.
  destruct (window_is_last_31_days steady "USD" "EUR" [] sample_rates (JFloat 0.9) init
              (JFloat 0.9)) as (Hrun & _ & _ & _ & Hlast & _).
  - reflexivity.
  - intros k Hk. exists sample_rates. split; [apply success_success|reflexivity].
  - split; [exact Hrun|exact Hlast].
Defined.

(** C8.  In every run, whatever the inputs and whatever the source
    answers, each series that is drawn (the chart of the trend block and
    every column of the table) has its dates in strictly increasing
    order: every date is earlier than all the dates after it, so none is
    repeated. *)
Theorem series_dates_strictly_increasing w i :
  Forall series_increasing (trace (run w i).2).
Proof.
  eapply Forall_impl; [apply (main_preserves w i init); constructor|].
  by intros e [_ ?].
Qed.

(** C9.  The swap exchanges the base with the first target and leaves
    the other targets where they were; with no target it changes
    nothing.  The amount is not touched, and a run with the button
    pressed is the run of the swapped selection: every request it issues
    is for the rates of the new base. *)
Theorem swap_exchanges_base_and_first_target w from_name to_names amount :
  swap from_name [] = (from_name, []) ∧
  (∀ first rest, to_names = first :: rest →
     swap from_name to_names = (first, from_name :: rest)) ∧
  (∀ k : nat, 0 < k → (swap from_name to_names).2 !! k = to_names !! k) ∧
  run w (Inputs from_name to_names amount true)
  = run w (Inputs (swap from_name to_names).1 (swap from_name to_names).2 amount false) ∧
  Forall (λ ep, base_of ep = currencies (swap from_name to_names).1)
    (fetches (trace (run w (Inputs from_name to_names amount true)).2)).
Proof.
  split; [done|]. split; [by intros first rest ->|]. split; [|split].
  - intros k Hk. destruct to_names as [|first rest]; [done|].
    cbn [swap snd]. by destruct k; [lia|].
  - unfold run, main, sidebar. cbn [swap_clicked from_currency_name to_currency_names].
    by destruct (swap from_name to_names).
  - apply fetches_requests_base.
    pose proof (main_preserves w (Inputs from_name to_names amount true) init) as Hrun.
    unfold sidebar in Hrun.
    cbn [swap_clicked from_currency_name to_currency_names] in Hrun.
    destruct (swap from_name to_names) as [from' to']. apply Hrun. constructor.
Qed.

(** C10.  Base USD, targets EUR and NGN, and a successful latest-rates
    reply that gives EUR a rate and has no NGN (as the rates EUR 0.9 and
    JPY 150 do): the snapshot has EUR available at that rate and NGN
    missing, which is reported by a warning and not by an error; the one
    card drawn is the one of EUR and shows the product of the amount and
    the rate, whatever the amount and the rate (9.0 for 10 and 0.9); the
    run goes on to the history without an error notice and without
    stopping, and reaches its end, after 94 requests, when the chart
    call and the table call return. *)
Theorem end_to_end_snapshot w (amount rate : float) m :
  success_with m (upstream w 0 (Latest "USD")) →
  m !! "EUR" = Some (JFloat rate) →
  m !! "NGN" = None →
  let i := Inputs USD [EUR; NGN] amount false in
  fetch_live_rates w "USD" ["EUR"; "NGN"] init =
  (Done ({[ "EUR" := JFloat rate ]}, ["NGN"]),
   State 1 [Get (Latest "USD"); StWarning (CurrenciesNotFound ["NGN"])]) ∧
  py_mul amount (JFloat rate) = Val (amount * rate)%float ∧
  ∃ history,
    trace (run w i).2 =
    Get (Latest "USD") :: StWarning (CurrenciesNotFound ["NGN"])
      :: StSubheader ConversionResults
      :: StMetric 0 "EUR" (amount * rate) (JFloat rate) :: history ∧
    Forall (λ e, is_error e = false ∧ is_card e = false) history ∧
    (run w i).1 ≠ Stopped ∧
    (chart_call w (trend_series w i "EUR") = Val () →
     st_dataframe w (table_series w i) = Val () →
     (run w i).1 = Done () ∧ calls (run w i).2 = 94).
Proof.
  intros Hok Heur Hngn i.
  assert (project_rates (JObj m) ["EUR"; "NGN"] = Val {[ "EUR" := JFloat rate ]})
    as Hproj.
  { unfold project_rates. cbn [foldl mbind py_bind contains getitem].
    rewrite Heur. cbn [mbind py_bind]. by rewrite Hngn. }
  assert (filter (λ t, m !! t = None) ["EUR"; "NGN"] = ["NGN"]) as Hmissing.
  { rewrite filter_cons, decide_False by (by rewrite Heur).
    by rewrite filter_cons, decide_True. }
  split; [|split; [reflexivity|]].
  { rewrite (fetch_live_rates_success _ _ _ _ m {[ "EUR" := JFloat rate ]}) by done.
    cbv zeta. by rewrite Hmissing. }
  unfold run.
  rewrite (main_success w i init "USD" ["EUR"; "NGN"] m {[ "EUR" := JFloat rate ]})
    by done.
  rewrite Hmissing, bind_unfold.
  assert (conversion_cards "USD" ["EUR"; "NGN"] amount {[ "EUR" := JFloat rate ]}
            (State 1 [Get (Latest "USD"); StWarning (CurrenciesNotFound ["NGN"])])
          = (Done (),
             State 1 [Get (Latest "USD"); StWarning (CurrenciesNotFound ["NGN"]);
                      StSubheader ConversionResults;
                      StMetric 0 "EUR" (amount * rate) (JFloat rate)])) as Hcards
    by (vm_compute; reflexivity).
  change (conversion_cards _ _ _ _ _) with
    (conversion_cards "USD" ["EUR"; "NGN"] amount {[ "EUR" := JFloat rate ]}
       (State 1 [Get (Latest "USD"); StWarning (CurrenciesNotFound ["NGN"])])).
  rewrite Hcards.
  change (trend_block w "USD" ["EUR"; "NGN"]) with
    (trend_block w (base_currency i) (targets i)).
  change (table_block w "USD" ["EUR"; "NGN"]) with
    (table_block w (base_currency i) (targets i)).
  rewrite (history_blocks w i _ "EUR" (JFloat rate)) by reflexivity.
  rewrite decide_True by (cbn; lia).
  assert (∀ ds, Forall (λ e, is_error e = false ∧ is_card e = false) (gets "USD" ds))
    as Hgets.
  { intros ds. apply Forall_fmap, Forall_forall. by intros d _. }
  assert (∀ obs, Forall (λ e, is_error e = false ∧ is_card e = false) (chart obs))
    as Hchart.
  { intros obs. unfold chart. by destruct obs; repeat constructor. }
  assert (Forall (λ e, is_error e = false ∧ is_card e = false) (trend_events w i "EUR"))
    as Htrend.
  { constructor; [done|]. apply Forall_app. split; [apply Hgets|apply Hchart]. }
  assert (Forall (λ e, is_error e = false ∧ is_card e = false) (table_events w i))
    as Htable.
  { constructor; [done|]. apply Forall_app. split; [|by repeat constructor].
    cbn [mbind list_bind]. repeat (apply Forall_app; split); done || apply Hgets. }
  destruct (chart_call w (trend_series w i "EUR")) as [[]|e]; cbn [fst snd trace calls].
  - exists (trend_events w i "EUR" ++ table_events w i).
    split; [reflexivity|]. split; [by apply Forall_app|].
    split; [apply outcome_proceeds|].
    intros _ ->. split; reflexivity.
  - exists (trend_events w i "EUR"). split; [reflexivity|]. split; [done|].
    split; [done|]. intros [=].
Qed.

(** The rates EUR 0.9 and JPY 150 and the amount 10, against the steady
    source. *)
Lemma end_to_end_snapshot_witness :
  ∃ history,
    run steady (Inputs USD [EUR; NGN] 10 false) =
    (Done (),
     State 94
       (Get (Latest "USD") :: StWarning (CurrenciesNotFound ["NGN"])
          :: StSubheader ConversionResults :: StMetric 0 "EUR" 9 (JFloat 0.9)
          :: history)).
Proof.
  destruct (end_to_end_snapshot steady 10 0.9 sample_rates)
    as (_ & _ & history & Htrace & _ & _ & Hend);
    [apply success_success|reflexivity|reflexivity|].
  destruct Hend as [Hdone Hcalls].
  - unfold chart_call. by destruct (trend_series _ _ _).
  - apply st_dataframe_returns.
  - exists history.
    destruct (run steady (Inputs USD [EUR; NGN] 10 false)) as [r [n evs]].
    cbn [fst snd calls trace] in *. by rewrite Hdone, Hcalls, Htrace.
Defined.


(* ===================================================================== *)
(** * Further properties of the script *)
(* ===================================================================== *)

(** X1.  With no target selected, a reply that reports success goes
    through whatever its rates field holds, since the two
    comprehensions of lines 55 and 58 never look at it: the run is one
    request, the heading of the results and the warning of line 68, with
    no card, no history and no table. *)
Theorem no_target_selected w i fields all_rates :
  targets i = [] →
  latest_reply w i = Body (JObj fields) →
  fields !! "result" = Some (JStr "success") →
  fields !! "rates" = Some all_rates →
  run w i =
  (Done (),
   State 1 [Get (Latest (base_currency i)); StSubheader ConversionResults;
            StWarning SelectTarget]).
Proof.
  intros Htargets Hreply Hstatus Hrates.
  unfold run. rewrite main_unfold, Htargets, bind_unfold.
  unfold fetch_live_rates, try_except, get_json. rewrite bind_unfold.
  change (upstream w (calls init) (Latest (base_currency i))) with (latest_reply w i).
  rewrite Hreply. cbn [json_of]. run_script.
  unfold getitem at 1. rewrite Hstatus. run_script.
  cbn [eq_str String.eqb Ascii.eqb Bool.eqb negb]. run_script.
  unfold getitem at 1. rewrite Hrates. run_script.
  cbn [project_rates project_missing foldl]. run_script. reflexivity.
Qed.

(** A reply whose rates field is [null], and no target. *)
Lemma no_target_selected_witness :
  run null_rates (Inputs USD [] 1 false) =
  (Done (),
   State 1 [Get (Latest "USD"); StSubheader ConversionResults; StWarning SelectTarget]).
Proof.
  apply (no_target_selected null_rates (Inputs USD [] 1 false)
           {[ "result" := JStr "success"; "rates" := JNull ]} JNull); reflexivity.
Defined.

Lemma fetch_start w i :
  fetch_live_rates w (base_currency i) (targets i) init =
  try_except
    (response ← eval (json_of (latest_reply w i));
     status ← eval (getitem response "result");
     if negb (eq_str "success" status) then
       emit (StError (CouldNotFetch response));; st_stop
     else
       all_rates ← eval (getitem response "rates");
       rates ← eval (project_rates all_rates (targets i));
       missing ← eval (project_missing all_rates (targets i));
       match missing with
       | [] => mret ()
       | _ :: _ => emit (StWarning (CurrenciesNotFound missing))
       end;;
       mret (rates, missing))
    (λ e, emit (StError (FailedToFetch e));; st_stop)
    (State 1 [Get (Latest (base_currency i))]).
Proof. reflexivity. Qed.

(** X2.  What the error notice of a failed latest-rates fetch carries.
    A status other than "success" is reported by line 51 with the whole
    response; everything else goes through the handler of line 61 with
    the exception: the one of the request when nothing usable came back,
    a [TypeError] for a payload that is not an object, a [KeyError] for
    an object without the status field, or with a success status and no
    rates field. *)
Theorem fetch_error_messages w i :
  let stops_with err :=
    run w i = (Stopped, State 1 [Get (Latest (base_currency i)); StError err]) in
  (latest_reply w i = NoReply → stops_with (FailedToFetch RequestError)) ∧
  (∀ j, latest_reply w i = Body j → (∀ fields, j ≠ JObj fields) →
        stops_with (FailedToFetch TypeError)) ∧
  (∀ fields, latest_reply w i = Body (JObj fields) → fields !! "result" = None →
             stops_with (FailedToFetch KeyError)) ∧
  (∀ fields status,
     latest_reply w i = Body (JObj fields) → fields !! "result" = Some status →
     status ≠ JStr "success" → stops_with (CouldNotFetch (JObj fields))) ∧
  (∀ fields,
     latest_reply w i = Body (JObj fields) →
     fields !! "result" = Some (JStr "success") → fields !! "rates" = None →
     stops_with (FailedToFetch KeyError)).
Proof.
  cbv zeta. repeat split.
  - intros Hreply. apply run_stops_with. rewrite fetch_start, Hreply. reflexivity.
  - intros j Hreply Hj. apply run_stops_with. rewrite fetch_start, Hreply.
    unfold try_except. cbn [json_of]. run_script.
    assert (getitem j "result" = Raise TypeError) as ->.
    { destruct j; try done. by destruct (Hj m). }
    reflexivity.
  - intros fields Hreply Hstatus. apply run_stops_with. rewrite fetch_start, Hreply.
    unfold try_except. cbn [json_of]. run_script.
    unfold getitem. rewrite Hstatus. reflexivity.
  - intros fields status Hreply Hstatus Hne. apply run_stops_with.
    rewrite fetch_start, Hreply. unfold try_except. cbn [json_of]. run_script.
    unfold getitem at 1. rewrite Hstatus. run_script.
    destruct (eq_str "success" status) eqn:Heq; [by apply eq_str_true in Heq|].
    reflexivity.
  - intros fields Hreply Hstatus Hrates. apply run_stops_with.
    rewrite fetch_start, Hreply. unfold try_except. cbn [json_of]. run_script.
    unfold getitem at 1. rewrite Hstatus. run_script.
    cbn [eq_str String.eqb Ascii.eqb Bool.eqb negb]. run_script.
    unfold getitem at 1. rewrite Hrates. reflexivity.
Qed.

(** X3.  A success status over a rates field that is [null], a boolean
    or a number: as soon as one target is selected, the membership test
    of line 55 raises a [TypeError], which the handler of line 61
    reports before stopping the run. *)
Theorem rates_not_a_container w i fields all_rates :
  targets i ≠ [] →
  latest_reply w i = Body (JObj fields) →
  fields !! "result" = Some (JStr "success") →
  fields !! "rates" = Some all_rates →
  scalar all_rates = true →
  run w i =
  (Stopped,
   State 1 [Get (Latest (base_currency i)); StError (FailedToFetch TypeError)]).
Proof.
  intros Htargets Hreply Hstatus Hrates Hscalar. apply run_stops_with.
  rewrite fetch_start, Hreply. unfold try_except. cbn [json_of]. run_script.
  unfold getitem at 1. rewrite Hstatus. run_script.
  cbn [eq_str String.eqb Ascii.eqb Bool.eqb negb]. run_script.
  unfold getitem at 1. rewrite Hrates. run_script.
  destruct (targets i) as [|t rest]; [done|].
  rewrite project_rates_scalar by done. reflexivity.
Qed.

(** The rates are [null] and EUR is selected. *)
Lemma rates_not_a_container_witness :
  run null_rates (Inputs USD [EUR] 1 false) =
  (Stopped, State 1 [Get (Latest "USD"); StError (FailedToFetch TypeError)]).
Proof.
  apply (rates_not_a_container null_rates (Inputs USD [EUR] 1 false)
           {[ "result" := JStr "success"; "rates" := JNull ]} JNull);
    done.
Defined.

(** X4.  A rate that is not a number stops the run in the cards.  When
    the latest-rates reply is a success and the rate it gives one of the
    selected targets cannot be multiplied by the amount (a string, a
    list, [null], an integer beyond the doubles), the product of line 73
    raises outside any [try]: the run ends with that exception after the
    heading and the cards of the targets before it, with no historical
    request, no chart and no table. *)
Theorem card_rate_not_a_number w i m t v e0 :
  success_with m (latest_reply w i) →
  t ∈ targets i →
  m !! t = Some v →
  py_mul (amount i) v = Raise e0 →
  ∃ e cards,
    run w i =
    (Raised e,
     State 1
       (Get (Latest (base_currency i))
          :: warning (filter (λ t, m !! t = None) (targets i))
          ++ StSubheader ConversionResults :: cards)) ∧
    (e = TypeError ∨ e = OverflowError) ∧
    Forall (λ e, is_card e = true) cards.
Proof.
  intros Hok Ht Hv Hmul.
  destruct (project_rates_obj m (targets i)) as (rates & Hproj & Hrates).
  unfold run.
  rewrite (main_success w i init (base_currency i) (targets i) m rates)
    by (done || apply sidebar_eta).
  cbn [calls trace init app]. rewrite bind_unfold.
  destruct (conversion_cards_log (base_currency i) (targets i) (amount i) rates
              (State 1 (Get (Latest (base_currency i))
                          :: warning (filter (λ t, m !! t = None) (targets i)))))
    as (r & cards & -> & Hr & Hcards & Hdone).
  assert (Forall (λ e, is_card e = true) cards) as Hcards'.
  { eapply Forall_impl; [exact Hcards|]. by intros [| |[]| | | |]. }
  destruct Hr as [->|[->| ->]].
  - destruct (Hdone eq_refl t v Ht) as [c Hc]; [|congruence].
    by rewrite Hrates, decide_True.
  - exists TypeError, cards. split; [done|]. split; [by left|done].
  - exists OverflowError, cards. split; [done|]. split; [by right|done].
Qed.

(** The rate of EUR comes as the string "0.9". *)
Lemma card_rate_not_a_number_witness :
  ∃ cards,
    run quoted_rate (Inputs USD [JPY; EUR] 1 false) =
    (Raised TypeError,
     State 1 (Get (Latest "USD") :: StSubheader ConversionResults :: cards)).
Proof.
  destruct (card_rate_not_a_number quoted_rate (Inputs USD [JPY; EUR] 1 false)
              {[ "EUR" := JStr "0.9"; "JPY" := JInt 150 ]} "EUR" (JStr "0.9") TypeError)
    as (e & cards & Hrun & _ & _).
  - apply success_success.
  - right. left.
  - reflexivity.
  - reflexivity.
  - exists cards.
    assert (e = TypeError) as <-; [|exact Hrun].
    assert ((run quoted_rate (Inputs USD [JPY; EUR] 1 false)).1 = Raised TypeError)
      as Hres by reflexivity.
    rewrite Hrun in Hres. by injection Hres.
Defined.

(** X5.  Every card of every run is for the target at the position of
    its column, and shows the product of the amount and the rate the
    latest-rates reply gives that target: no card is drawn for a target
    the reply does not carry, and none shows anything but
    [amount * rate]. *)
Theorem cards_show_amount_times_rate w i :
  Forall
    (λ e,
       match e with
       | StMetric col to_cur converted rate =>
           targets i !! col = Some to_cur ∧
           reply_rate (latest_reply w i) to_cur = Val rate ∧
           py_mul (amount i) rate = Val converted
       | _ => True
       end)
    (trace (run w i).2).
Proof.
  apply run_forall; try done.
  - by intros [| |[]| | | |].
  - intros first _. by destruct (observations _ _ _ _ _); repeat constructor.
Qed.

(** X6.  The exceptions a run can end with, and where.  A product in
    the cards raises a [TypeError] or an [OverflowError], and the table
    a [NameError] when [start_date] is unbound, the latter only with
    more than one target selected: then the latest-rates request is the
    only one the run has issued.  Otherwise the exception is the one the
    chart call raised on the series of the first target, after the 32
    requests of the trend, or the one the table call raised on the
    table, after all the requests of the run.  No failure of a request
    and no missing key ever escapes. *)
Theorem uncaught_exceptions w i e :
  (run w i).1 = Raised e →
  ((e = TypeError ∨ e = OverflowError ∨ (e = NameError ∧ 1 < length (targets i))) ∧
   fetches (trace (run w i).2) = [Latest (base_currency i)]) ∨
  (∃ first,
     head (targets i) = Some first ∧
     chart_call w (trend_series w i first) = Raise e ∧
     calls (run w i).2 = 32) ∨
  (1 < length (targets i) ∧
   st_dataframe w (table_series w i) = Raise e ∧
   calls (run w i).2 = 32 + 31 * length (targets i)).
Proof.
  destruct (run_paths w i) as [err|pre e' Hp He|pre Hp _|pre Hp Hlen
                              |pre first rate Hp Htargets _
                              |pre first rate e' Hp _ Hhead _ Hchart
                              |pre first rate Hp Hlen _ _ _];
    cbn [fst snd trace calls]; try discriminate.
  - intros [= <-]. left. split; [tauto|]. by apply (fetches_rendered w i).
  - intros [= <-]. left. split; [tauto|].
    rewrite fetches_app, (fetches_rendered w i) by done. done.
  - intros Hraised%outcome_raised. right. left. exists first.
    by rewrite Htargets.
  - intros [= <-]. right. left. by exists first.
  - intros Hraised%outcome_raised. right. by right.
Qed.

(** The historical rates come as strings and the cell format raises on
    them: the run ends with that exception after its 94 requests. *)
Lemma uncaught_exceptions_witness :
  (run quoted_history (Inputs USD [EUR; JPY] 1 false)).1 = Raised ValueError ∧
  calls (run quoted_history (Inputs USD [EUR; JPY] 1 false)).2 = 94.
Proof.
  assert ((run quoted_history (Inputs USD [EUR; JPY] 1 false)).1 = Raised ValueError)
    as Hraised by (vm_compute; reflexivity).
  split; [exact Hraised|].
  destruct (uncaught_exceptions quoted_history (Inputs USD [EUR; JPY] 1 false)
              ValueError Hraised)
    as [[[Herr|[Herr|[Herr _]]] _]|[(first & _ & _ & Hcalls)|(_ & _ & Hcalls)]];
    try discriminate Herr.
  - vm_compute in Hcalls. discriminate Hcalls.
  - exact Hcalls.
Defined.

(** X7.  The requests of a run, in order.  Every run starts with the
    latest-rates request.  It either stops there; or goes on with the 31
    days of the window for the trend; or, with more than one target,
    with these 31 days followed by the same 31 days once per target for
    the table.  The number of requests is 1, 32 or 32 + 31 n for n
    targets, all for the rates of the base currency. *)
Theorem requests_of_a_run w i :
  let base := base_currency i in
  let days := (λ d, Historical d base) <$> window (first_day w) in
  let requests := fetches (trace (run w i).2) in
  calls (run w i).2 = length requests ∧
  (requests = [Latest base] ∨
   requests = Latest base :: days ∨
   (1 < length (targets i) ∧
    requests = Latest base :: days ++ (targets i ≫= λ _, days))).
Proof.
  cbv zeta.
  assert (length ((λ d, Historical d (base_currency i)) <$> window (first_day w)) = 31)
    as Hdays by (by rewrite length_fmap, window_length).
  destruct (run_paths w i) as [err|pre e' Hp He|pre Hp _|pre Hp Hlen
                              |pre first rate Hp _ _
                              |pre first rate e' Hp _ _ _ _
                              |pre first rate Hp Hlen _ _ _];
    cbn [fst snd trace calls];
    rewrite ?fetches_app, ?fetches_trend_events, ?fetches_table_events,
      ?(fetches_rendered w i) by done.
  - split; [done|by left].
  - split; [done|by left].
  - split; [done|by left].
  - split; [done|by left].
  - split; [cbn [app length]; by rewrite Hdays|right; by left].
  - split; [cbn [app length]; by rewrite Hdays|right; by left].
  - split; [|right; right; by split].
    cbn [app length]. rewrite length_app, Hdays. do 2 f_equal.
    generalize (targets i). intros l. induction l as [|c l IH]; [done|].
    cbn [mbind list_bind length]. rewrite length_app, Hdays. lia.
Qed.

(** X8.  Every series a run draws is well shaped: the chart and every
    column of the table have as many dates as rates, so the frames of
    lines 102 and 127 are built from lists of equal length, and all
    their dates lie in the 31 days that end today; a chart is never
    drawn for an empty series. *)
Theorem series_are_paired_and_recent w i :
  Forall
    (λ e,
       match e with
       | StAltairChart dates_list historical_rates =>
           series_ok w (dates_list, historical_rates) ∧ dates_list ≠ []
       | StDataframe table_data =>
           ∀ cur series, table_data !! cur = Some series → series_ok w series
       | _ => True
       end)
    (trace (run w i).2).
Proof.
  assert (∀ cur n,
            series_ok w
              ((observations w (base_currency i) cur n (window (first_day w))).*1,
               (observations w (base_currency i) cur n (window (first_day w))).*2))
    as Hseries.
  { intros cur n. split; [apply observations_lengths|]. cbn [fst].
    eapply Forall_impl; [apply observations_in_window|].
    intros d Hd. unfold first_day in Hd. cbn beta in Hd. lia. }
  apply run_forall; try done.
  - by intros [| |[]| | | |].
  - intros first _.
    destruct (observations w (base_currency i) first 1 (window (first_day w)))
      as [|o obs] eqn:Hobs; [done|].
    cbn [chart]. constructor; [|done]. rewrite <- Hobs. split; [apply Hseries|].
    by rewrite Hobs.
  - intros cur series [Hempty|(j & _ & ->)]%table_of_lookup_inv.
    + by rewrite lookup_empty in Hempty.
    + apply Hseries.
Qed.

(** X9.  A table drawn in a run has one column per distinct target,
    whatever the historical requests returned: a target without a single
    observation still has its (empty) column, and a target selected
    twice has only one. *)
Theorem table_columns w i :
  Forall
    (λ e,
       match e with
       | StDataframe table_data => dom table_data = list_to_set (targets i)
       | _ => True
       end)
    (trace (run w i).2).
Proof.
  apply run_forall; try done.
  - by intros [| |[]| | | |].
  - intros first _. by destruct (observations _ _ _ _ _); repeat constructor.
  - by rewrite table_of_dom, dom_empty_L, union_empty_r_L.
Qed.

(** X10.  When every historical request fails, the trend block draws its
    heading and no chart (the guard of line 101), while the table block
    still draws its table (the guard of line 128 only asks for a
    column), with an empty series for every target. *)
Theorem all_days_fail w from_currency :
  (∀ n d, fetch_failed (upstream w n (Historical d from_currency)) = true) →
  (∀ first rest rates rate s,
     rates !! first = Some rate →
     trend_block w from_currency (first :: rest) rates s =
     (Done (Some (today w - 30)%Z),
      State (calls s + 31)
        (trace s ++ StSubheader (Last30Days from_currency first)
           :: gets from_currency (window (today w - 30))))) ∧
  (∀ to_currencies start_date s,
     1 < length to_currencies →
     ∃ table_data,
       table_block w from_currency to_currencies (Some start_date) s =
       (Done (),
        State (calls s + 31 * length to_currencies)
          (trace s ++ StSubheader Last30DaysAll
             :: (to_currencies ≫= λ _, gets from_currency (window start_date))
             ++ [StDataframe table_data])) ∧
       ∀ cur, cur ∈ to_currencies → table_data !! cur = Some ([], [])).
Proof.
  intros Hfail.
  assert (∀ cur n start_date,
            observations w from_currency cur n (window start_date) = []) as Hnone.
  { intros cur n start_date. apply observations_none.
    intros k d _. by apply observed_failed. }
  split.
  - intros first rest rates rate s Hrate.
    rewrite (trend_block_spec _ _ _ _ _ rate) by done. cbv zeta.
    by rewrite Hnone, app_nil_r.
  - intros to_currencies start_date s Hlen. eexists. split.
    { apply table_block_returns; [done|]. apply st_dataframe_empty.
      intros cur series [Hempty|(j & _ & ->)]%table_of_lookup_inv.
      - by rewrite lookup_empty in Hempty.
      - by rewrite Hnone. }
    intros cur Hcur.
    assert (cur ∈ dom (table_of w from_currency start_date (calls s) to_currencies ∅))
      as [series Hseries]%elem_of_dom.
    { rewrite table_of_dom. by apply elem_of_union_l, elem_of_list_to_set. }
    rewrite Hseries.
    apply table_of_lookup_inv in Hseries as [Hempty|(j & _ & ->)].
    + by rewrite lookup_empty in Hempty.
    + by rewrite Hnone.
Qed.

(** The source answers the latest-rates request only. *)
Lemma all_days_fail_witness :
  trend_block history_down "USD" ["EUR"] sample_rates init =
  (Done (Some 738970%Z),
   State 31 (StSubheader (Last30Days "USD" "EUR") :: gets "USD" (window 738970))).
Proof.
  destruct (all_days_fail history_down "USD") as [Htrend _]; [done|].
  apply (Htrend "EUR" [] sample_rates (JFloat 0.9) init). reflexivity.
Defined.

(** X11.  The swap undoes itself, and only rearranges the selection: the
    base and the targets after the swap are the base and the targets
    before it in another order. *)
Theorem swap_twice from_name to_names :
  swap (swap from_name to_names).1 (swap from_name to_names).2 = (from_name, to_names) ∧
  (swap from_name to_names).1 :: (swap from_name to_names).2 ≡ₚ from_name :: to_names.
Proof.
  destruct to_names as [|first rest]; [done|].
  split; [done|]. cbn. apply Permutation_swap.
Qed.

(** X12.  The swap can select a target twice.  From a selection without
    repetition, the targets after the swap are without repetition
    exactly when the old base was not among the targets after the first
    (it may have been the first). *)
Theorem swap_repeats_a_target from_name first rest :
  NoDup (first :: rest) →
  (NoDup (swap from_name (first :: rest)).2 ↔ from_name ∉ rest).
Proof.
  intros [_ Hrest]%NoDup_cons. cbn. rewrite NoDup_cons. tauto.
Qed.

(** USD as base and as second target: after the swap it is there twice. *)
Lemma swap_repeats_a_target_witness :
  (swap USD [EUR; USD]).2 = [USD; USD] ∧ ¬ NoDup (swap USD [EUR; USD]).2.
Proof.
  split; [reflexivity|].
  intros Hnodup.
  apply (swap_repeats_a_target USD EUR [USD]) in Hnodup.
  - apply Hnodup. left.
  - apply NoDup_cons. split; [|apply NoDup_singleton].
    by intros [=]%list_elem_of_singleton.
Defined.

(** X13.  The history hangs on the first target alone.  When the
    latest-rates reply is a success that does not carry the first
    selected target, the run issues no historical request at all and
    draws neither chart nor table, whichever other targets the reply
    carries. *)
Theorem no_history_without_first_target w i m first :
  success_with m (latest_reply w i) →
  head (targets i) = Some first →
  m !! first = None →
  fetches (trace (run w i).2) = [Latest (base_currency i)] ∧
  Forall (λ e, match e with
               | StAltairChart _ _ | StDataframe _ => False
               | _ => True
               end)
    (trace (run w i).2).
Proof.
  intros Hok Hhead Hfirst.
  assert (∀ rate, reply_rate (latest_reply w i) first ≠ Val rate) as Hnone.
  { intros rate. by rewrite (reply_rate_success m), Hfirst. }
  destruct (run_paths w i) as [err|pre e' Hp He|pre Hp _|pre Hp Hlen
                              |pre first' rate Hp Htargets Hrate
                              |pre first' rate e' Hp Hlen Hhead' Hrate _
                              |pre first' rate Hp Hlen Hhead' Hrate _];
    cbn [fst snd trace].
  - split; [done|by repeat constructor].
  - split; [by apply (fetches_rendered w i)|by apply (rendered_no_series w i)].
  - split; [by apply (fetches_rendered w i)|by apply (rendered_no_series w i)].
  - rewrite fetches_app, (fetches_rendered w i) by done. split; [done|].
    apply Forall_app. split; [by apply (rendered_no_series w i)|by repeat constructor].
  - rewrite Htargets in Hhead. injection Hhead as ->. by destruct (Hnone rate).
  - rewrite Hhead' in Hhead. injection Hhead as ->. by destruct (Hnone rate).
  - rewrite Hhead' in Hhead. injection Hhead as ->. by destruct (Hnone rate).
Qed.

(** NGN first, which the steady source does not know; EUR, which it
    knows, second. *)
Lemma no_history_without_first_target_witness :
  fetches (trace (run steady (Inputs USD [NGN; EUR] 10 false)).2) = [Latest "USD"].
Proof.
  apply (no_history_without_first_target steady (Inputs USD [NGN; EUR] 10 false)
           sample_rates "NGN"); [apply success_success|reflexivity|reflexivity].
Defined.

(** X14.  Nothing is interpolated or filled in.  In the series the
    trend block hands to the chart, and in every column of the table
    the table block hands to [st.dataframe], each observation is for one
    of the 31 days of the window and carries the rate that the reply to
    that day's request gave the currency, in a reply that reports
    success.  Each block ends as its drawing call does. *)
Theorem series_are_faithful w from_currency :
  (∀ first rest rates rate s,
     rates !! first = Some rate →
     ∃ obs,
       trend_block w from_currency (first :: rest) rates s =
       (outcome (chart_call w obs) (Some (today w - 30)%Z),
        State (calls s + 31)
          (trace s ++ StSubheader (Last30Days from_currency first)
             :: gets from_currency (window (today w - 30)) ++ chart obs)) ∧
       faithful w from_currency first (calls s) (today w - 30) obs) ∧
  (∀ to_currencies start_date s,
     1 < length to_currencies →
     ∃ table_data,
       table_block w from_currency to_currencies (Some start_date) s =
       (outcome (st_dataframe w table_data) (),
        State (calls s + 31 * length to_currencies)
          (trace s ++ StSubheader Last30DaysAll
             :: (to_currencies ≫= λ _, gets from_currency (window start_date))
             ++ [StDataframe table_data])) ∧
       ∀ cur series,
         table_data !! cur = Some series →
         ∃ (j : nat) obs,
           to_currencies !! j = Some cur ∧
           series = (obs.*1, obs.*2) ∧
           faithful w from_currency cur (calls s + 31 * j) start_date obs).
Proof.
  split.
  - intros first rest rates rate s Hrate. eexists.
    split; [by eapply trend_block_spec|]. apply observations_faithful.
  - intros to_currencies start_date s Hlen. eexists.
    split; [by apply table_block_spec|].
    intros cur series [Hempty|(j & Hj & ->)]%table_of_lookup_inv.
    + by rewrite lookup_empty in Hempty.
    + exists j. eexists. split; [done|]. split; [done|]. apply observations_faithful.
Qed.

(** X15.  When a run ends normally.  After a successful latest-rates
    reply with rates mapping [m], the run reaches its end exactly when
    every selected target that [m] carries has a number for its rate;
    the chart call returns, if [m] carries the first target; and, if
    more than one target is selected, [m] carries the first of them and
    the table call returns.  Otherwise it ends with an exception: in the
    cards, at the chart, or at the table. *)
Theorem run_completes_iff w i m :
  success_with m (latest_reply w i) →
  ((run w i).1 = Done () ↔
   (∀ t rate, t ∈ targets i → m !! t = Some rate →
      ∃ converted, py_mul (amount i) rate = Val converted) ∧
   (∀ first, head (targets i) = Some first → is_Some (m !! first) →
      chart_call w (trend_series w i first) = Val ()) ∧
   (1 < length (targets i) →
    (∃ first, head (targets i) = Some first ∧ is_Some (m !! first)) ∧
    st_dataframe w (table_series w i) = Val ())).
Proof.
  intros Hok.
  destruct (project_rates_obj m (targets i)) as (rates & Hproj & Hrates).
  assert (∀ t, t ∈ targets i → rates !! t = m !! t) as Hin.
  { intros t Ht. by rewrite Hrates, decide_True. }
  unfold run.
  rewrite (main_success w i init (base_currency i) (targets i) m rates)
    by (done || apply sidebar_eta).
  cbn [calls trace init app]. rewrite bind_unfold.
  set (s1 := State 1 (Get (Latest (base_currency i))
                        :: warning (filter (λ t, m !! t = None) (targets i)))).
  pose proof (conversion_cards_done_iff (base_currency i) (targets i) (amount i) rates s1)
    as Hcards.
  assert ((∀ t rate, t ∈ targets i → rates !! t = Some rate →
             ∃ c, py_mul (amount i) rate = Val c)
          ↔ (∀ t rate, t ∈ targets i → m !! t = Some rate →
               ∃ c, py_mul (amount i) rate = Val c)) as Hsame.
  { split; intros Hnum t rate Ht Hrate; apply (Hnum t rate Ht); [by rewrite Hin|].
    by rewrite <- Hin. }
  rewrite Hsame in Hcards. clear Hsame.
  destruct (conversion_cards_log (base_currency i) (targets i) (amount i) rates s1)
    as (r & cards & Heq & Hr & _ & _).
  rewrite Heq in Hcards |- *. cbn [fst] in Hcards. subst s1. cbn [calls trace].
  destruct Hr as [->|[->| ->]].
  2:{ split; [done|]. intros [Hnum _]. by apply Hcards in Hnum. }
  2:{ split; [done|]. intros [Hnum _]. by apply Hcards in Hnum. }
  assert (∀ t rate, t ∈ targets i → m !! t = Some rate →
            ∃ c, py_mul (amount i) rate = Val c) as Hnum by (by apply Hcards).
  destruct (head (targets i)) as [first|] eqn:Hhead.
  2:{ rewrite bind_unfold, trend_block_skipped by (intros first; by rewrite Hhead).
      rewrite table_block_single by (by destruct (targets i); [cbn; lia|]).
      split; [|done]. intros _. split; [done|]. split; [done|].
      destruct (targets i); [cbn; lia|done]. }
  assert (first ∈ targets i) as Hfirst.
  { destruct (targets i); [done|]. injection Hhead as ->. left. }
  destruct (m !! first) as [rate|] eqn:Hm.
  - rewrite (history_blocks w i rates first rate) by (by rewrite ?Hin).
    destruct (chart_call w (trend_series w i first)) as [[]|e] eqn:Hchart.
    + destruct (decide (1 < length (targets i))) as [Hlen|Hlen]; cbn [fst outcome].
      * destruct (st_dataframe w (table_series w i)) as [[]|e] eqn:Htable;
          cbn [fst outcome].
        -- split; [|done]. intros _. split; [done|]. split.
           ++ by intros first' [= <-] _.
           ++ intros _. split; [|done]. exists first. split; [done|].
              rewrite Hm. by eexists.
        -- split; [done|]. intros (_ & _ & Htab).
           destruct (Htab Hlen) as [_ [=]].
      * split; [|done]. intros _. split; [done|]. split; [|lia].
        by intros first' [= <-] _.
    + destruct (decide (1 < length (targets i))) as [Hlen|Hlen]; cbn [fst outcome];
        (split; [done|]); intros (_ & Hc & _);
        rewrite (Hc first) in Hchart; done || (rewrite Hm; by eexists).
  - rewrite bind_unfold, trend_block_skipped.
    2:{ intros first'. rewrite Hhead. intros [= <-]. by rewrite Hin. }
    destruct (decide (1 < length (targets i))) as [Hlen|Hlen].
    + rewrite table_block_unbound by done. split; [done|].
      intros (_ & _ & Hsecond). destruct (Hsecond Hlen) as [(first' & [= <-] & Hsome) _].
      rewrite Hm in Hsome. by destruct Hsome.
    + rewrite table_block_single by lia. split; [|done]. intros _.
      split; [done|]. split; [|lia].
      intros first' [= <-] Hsome. rewrite Hm in Hsome. by destruct Hsome.
Qed.

(** Against the steady source: EUR alone runs to its end; NGN before EUR
    does not. *)
Lemma run_completes_iff_witness :
  (run steady (Inputs USD [EUR] 10 false)).1 = Done () ∧
  (run steady (Inputs USD [NGN; EUR] 10 false)).1 ≠ Done ().
Proof.
  split.
  - apply (run_completes_iff steady (Inputs USD [EUR] 10 false) sample_rates);
      [apply success_success|].
    split; [|split].
    + intros t rate [->|[]%elem_of_nil]%elem_of_cons [= <-]. by eexists.
    + intros first _ _. unfold chart_call. by destruct (trend_series _ _ _).
    + cbn. lia.
  - intros Hdone.
    apply (run_completes_iff steady (Inputs USD [NGN; EUR] 10 false) sample_rates)
      in Hdone as (_ & _ & Hfirst); [|apply success_success].
    destruct Hfirst as [(first & [= <-] & [rate Hrate]) _]; [cbn; lia|].
    discriminate Hrate.
Defined.
